(** * AITemplateEditor: session guard, client gateway and admin query routes

    A shallow embedding of
    - [server/middleware/auth.js]            (the Session Guard [auth]),
    - the [ApiService] class of the client   ([request], [isAuthenticated],
                                              [logout]),
    - the admin router                       ([GET /dashboard], [GET /users],
                                              [GET /templates],
                                              [POST /templates]),
    together with the properties the specification states about them. *)

From Stdlib Require Import ZArith QArith Qround Ascii String List Bool Lia.
From stdpp Require Import base gmap strings list sorting pretty.

Open Scope Z_scope.
Open Scope string_scope.

(* ===================================================================== *)
(** ** JavaScript values *)
(* ===================================================================== *)

Module Js.

(** The values that flow through the modelled code.  Numbers are the
    integers plus [NaN]; an array or a nested object is kept as
    [composite n t], where [n] and [t] are what numeric and string
    coercion make of it — the code below only ever tests such a value
    for truthiness or coerces it. *)
Inductive value :=
| undefined
| null
| boolean (b : bool)
| number (z : Z)
| NaN
| str (s : string)
| composite (n : option Z) (t : string).

(** A plain object: property name to value.  Reading a missing property
    gives [undefined]. *)
Definition get (o : gmap string value) (k : string) : value :=
  default undefined (o !! k).

(** [ToBoolean]. *)
Definition truthy (v : value) : bool :=
  match v with
  | undefined | null | NaN => false
  | boolean b => b
  | number z => negb (Z.eqb z 0)
  | str s => negb (String.eqb s "")
  | composite _ _ => true
  end.

(** [a || b]. *)
Definition or (a b : value) : value := if truthy a then a else b.

(** [v === 'lit'] for a string literal. *)
Definition is_str (v : value) (lit : string) : bool :=
  match v with
  | str s => String.eqb s lit
  | _ => false
  end.

(** [v === false]. *)
Definition is_false (v : value) : bool :=
  match v with
  | boolean false => true
  | _ => false
  end.

(** Thrown values: an [Error] with its [name] and [message]. *)
Record error := Error { ename : string; emessage : string }.

(** The completion of a statement that may throw. *)
Inductive outcome (A : Type) :=
| Returned (a : A)
| Thrown (e : error).
Arguments Returned {A} a.
Arguments Thrown {A} e.

#[global] Instance outcome_ret : MRet outcome := @Returned.
#[global] Instance outcome_bind : MBind outcome :=
  λ A B k m, match m with
             | Returned a => k a
             | Thrown e => Thrown e
             end.

Definition map_outcome {A B} (f : A → B) (o : outcome A) : outcome B :=
  match o with
  | Returned a => Returned (f a)
  | Thrown e => Thrown e
  end.

(** Code that reads and writes a state [S] and may throw. *)
Definition Eff (S A : Type) : Type := S → outcome A * S.

Definition ret {S A} (a : A) : Eff S A := λ s, (Returned a, s).

Definition bind {S A B} (m : Eff S A) (k : A → Eff S B) : Eff S B :=
  λ s, match m s with
       | (Returned a, s') => k a s'
       | (Thrown e, s') => (Thrown e, s')
       end.

Definition throw {S A} (e : error) : Eff S A := λ s, (Thrown e, s).

(** [try { m } catch (e) { h e }] *)
Definition try_catch {S A} (m : Eff S A) (h : error → Eff S A) : Eff S A :=
  λ s, match m s with
       | (Thrown e, s') => h e s'
       | r => r
       end.

#[global] Instance eff_ret {S} : MRet (Eff S) := @ret S.
#[global] Instance eff_bind {S} : MBind (Eff S) := λ A B k m, bind m k.

(** [String.prototype.startsWith], [slice(n)] and [includes]. *)
Definition startsWith (s p : string) : bool := String.prefix p s.

Definition slice (s : string) (n : nat) : string :=
  String.substring n (String.length s - n) s.

Definition includes (s sub : string) : bool :=
  match String.index 0 sub s with
  | Some _ => true
  | None => false
  end.

(** [s?.includes(sub)] for a header that may be missing. *)
Definition opt_includes (s : option string) (sub : string) : bool :=
  match s with
  | Some s => includes s sub
  | None => false
  end.

End Js.

Abbreviation jsobj := (gmap string Js.value).

(** Object literals. *)
Definition obj (kvs : list (string * Js.value)) : jsobj := list_to_map kvs.

(* ===================================================================== *)
(** ** The document store *)
(* ===================================================================== *)

Module User.

(** Modelled from the spec: an account document (models/User is not among
    the sources), with the fields of the spec's data model. *)
Record doc := Doc {
  _id : string;
  name : string;
  email : string;
  password : option string;
  role : string;
  isActive : bool;
  lastLogin : Z;
  createdAt : Z
}.

(** [.select('-password')] *)
Definition select_no_password (u : doc) : doc :=
  Doc (_id u) (name u) (email u) None (role u) (isActive u)
      (lastLogin u) (createdAt u).

End User.

Module Template.

(** Modelled from the spec: a template document (models/Template is not
    among the sources), with the fields of the spec's data model that the
    admin routes read or write. *)
Record doc := Doc {
  _id : string;
  name : string;
  subject : string;
  createdBy : Js.value;
  isPublic : bool;
  isPremium : bool;
  category : string;
  isActive : bool;
  createdAt : Z
}.

End Template.

(** The two collections.  [fault] models an unavailable store: when set,
    every operation on the store rejects with that error. *)
Record Store := {
  users : list User.doc;
  templates : list Template.doc;
  fault : option Js.error
}.

(** Operations issued against the store, in the order they were issued. *)
Inductive DbOp :=
| OpUserFindById (id : Js.value)
| OpUserFind
| OpUserCount
| OpTemplateFind
| OpTemplateCount
| OpTemplateSave
| OpTemplateFindById (id : string).

(* ===================================================================== *)
(** ** Requests, responses and the handler monad *)
(* ===================================================================== *)

(** What the Session Guard attaches to the request as [req.user]. *)
Record Principal := {
  userId : Js.value;
  role : Js.value;
  userDoc : User.doc
}.

(** A query-string text that the routes read in two ways: as a number
    ([page - 1]) and with [parseInt].  It is kept as these two readings; the
    text '2' reads as 2 both ways, the text '1e3' as the number 1000 and
    the integer 1, and a text without leading digits has no integer
    ([None] for [NaN]).  Texts whose number is not an integer are left
    out, as they are for [limit]. *)
Record NumericText := {
  number_of : Z;
  parseInt : option Z
}.

(** The decimal text of an integer, and the number itself (the default
    [page = 1]): both readings give it back. *)
Definition plain (n : Z) : NumericText :=
  {| number_of := n; parseInt := Some n |}.

(** [req.query] of the admin listings ([None]: parameter absent).  [limit]
    is only ever read as a number and is kept as that number. *)
Record Query := {
  page : option NumericText;
  limit : option Z;
  search : option string;
  category : option string;
  isPublic : option string
}.

Definition no_query : Query :=
  {| page := None; limit := None; search := None;
     category := None; isPublic := None |}.

Record Request := {
  authorization : option string;   (* req.header('Authorization') *)
  user : option Principal;         (* req.user *)
  query : Query;                   (* req.query *)
  body : jsobj                     (* req.body *)
}.

(** A template as a listing returns it: the document and, from
    [.populate('createdBy', 'name email')], the owner's name and email. *)
Record Populated := {
  tdoc : Template.doc;
  owner : option (string * string)
}.

Record Pagination := {
  current : option Z;    (* [None]: not a number, sent as null *)
  pages : option Z;      (* [None]: not a finite number, sent as null *)
  total : Z
}.

Record Stats := {
  totalUsers : Z;
  totalTemplates : Z;
  publicTemplates : Z;
  premiumTemplates : Z;
  activeUsers : Z;
  recentTemplates : list Populated
}.

Inductive Payload :=
| PObject (o : jsobj)
| PUsers (us : list User.doc) (pg : Pagination)
| PTemplates (ts : list Populated) (pg : Pagination)
| PStats (st : Stats)
| PCreated (message : string) (t : option Populated).

Record Response := { status : Z; payload : Payload }.

(** The state one request handler runs in. *)
Record Server := {
  db : Store;
  oplog : list DbOp;           (* store operations issued so far *)
  req : Request;
  res : option Response;       (* what [res.json] sent, if anything *)
  next_called : bool
}.

Definition Srv : Type → Type := Js.Eff Server.

Definition set_res (r : Response) : Srv unit :=
  λ s, (Js.Returned tt,
        {| db := db s; oplog := oplog s; req := req s;
           res := Some r; next_called := next_called s |}).

(** [res.status(code).json(o)] *)
Definition res_status_json (code : Z) (o : jsobj) : Srv unit :=
  set_res {| status := code; payload := PObject o |}.

Definition set_req_user (p : Principal) : Srv unit :=
  λ s, (Js.Returned tt,
        {| db := db s; oplog := oplog s;
           req := {| authorization := authorization (req s);
                     user := Some p;
                     query := query (req s);
                     body := body (req s) |};
           res := res s; next_called := next_called s |}).

Definition next : Srv unit :=
  λ s, (Js.Returned tt,
        {| db := db s; oplog := oplog s; req := req s;
           res := res s; next_called := true |}).

(** Every store operation is logged, then rejects if the store is down. *)
Definition db_op {A} (op : DbOp) (f : Store → Js.outcome A * Store) : Srv A :=
  λ s,
    let log := (oplog s ++ [op])%list in
    match fault (db s) with
    | Some e =>
        (Js.Thrown e,
         {| db := db s; oplog := log; req := req s;
            res := res s; next_called := next_called s |})
    | None =>
        let '(r, d) := f (db s) in
        (r, {| db := d; oplog := log; req := req s;
               res := res s; next_called := next_called s |})
    end.

Definition db_read {A} (op : DbOp) (f : Store → A) : Srv A :=
  db_op op (λ d, (Js.Returned (f d), d)).

(** A fresh handler state for an inbound request. *)
Definition serve (d : Store) (r : Request) : Server :=
  {| db := d; oplog := []; req := r; res := None; next_called := false |}.

(* ===================================================================== *)
(** ** server/middleware/auth.js *)
(* ===================================================================== *)

(** [User.findById(id)]: the account whose [_id] is [id]; [null] when there
    is none (in particular for an [undefined] id). *)
Definition User_lookup (id : Js.value) (d : Store) : option User.doc :=
  match id with
  | Js.str i => List.find (λ u, String.eqb (User._id u) i) (users d)
  | _ => None
  end.

Definition User_findById_select (id : Js.value) : Srv (option User.doc) :=
  db_read (OpUserFindById id)
          (λ d, User.select_no_password <$> User_lookup id d).

(** The token a request presents: the header without its [Bearer ] prefix,
    or else the header as it is. *)
Definition extract_token (authHeader : option string) : option string :=
  match authHeader with
  | Some h => if Js.startsWith h "Bearer " then Some (Js.slice h 7) else authHeader
  | None => authHeader
  end.

(** [!token] fails: the token as a non-empty string. *)
Definition present (token : option string) : option string :=
  match token with
  | Some t => if String.eqb t "" then None else Some t
  | None => None
  end.

Section SessionGuard.

(** [jwt.verify(token, secret)] of the jsonwebtoken package: the decoded
    payload, or a thrown error. *)
Variable jwt_verify : string → string → Js.outcome jsobj.

(** [process.env.JWT_SECRET] *)
Variable JWT_SECRET : option string.

Definition secret : string :=
  match present JWT_SECRET with
  | Some s => s
  | None => "fallback-secret"
  end.

Definition auth : Srv unit :=
  Js.try_catch
    (λ s,
       let authHeader := authorization (req s) in
       let token := extract_token authHeader in
       match present token with
       | None =>
           res_status_json 401
             (obj [("success", Js.boolean false);
                   ("message", Js.str "Access denied. No token provided.")]) s
       | Some token =>
           match jwt_verify token secret with
           | Js.Thrown jwtError =>
               if String.eqb (Js.ename jwtError) "TokenExpiredError" then
                 res_status_json 401
                   (obj [("success", Js.boolean false);
                         ("message", Js.str "Token expired. Please log in again.");
                         ("code", Js.str "TOKEN_EXPIRED")]) s
               else
                 res_status_json 401
                   (obj [("success", Js.boolean false);
                         ("message", Js.str "Invalid token.");
                         ("code", Js.str "INVALID_TOKEN")]) s
           | Js.Returned decoded =>
               (user ← User_findById_select (Js.get decoded "userId");
                match user with
                | None =>
                    res_status_json 401
                      (obj [("success", Js.boolean false);
                            ("message", Js.str "User not found.");
                            ("code", Js.str "USER_NOT_FOUND")])
                | Some user =>
                    if negb (User.isActive user) then
                      res_status_json 401
                        (obj [("success", Js.boolean false);
                              ("message", Js.str "Account is deactivated.");
                              ("code", Js.str "ACCOUNT_DEACTIVATED")])
                    else
                      (set_req_user {| userId := Js.get decoded "userId";
                                       role := Js.get decoded "role";
                                       userDoc := user |};;
                       next)
                end) s
           end
       end)
    (λ error,
       res_status_json 500
         (obj [("success", Js.boolean false);
               ("message", Js.str "Authentication error.");
               ("code", Js.str "AUTH_ERROR")])).

End SessionGuard.

(* ===================================================================== *)
(** ** The client: class ApiService *)
(* ===================================================================== *)

(** More of the JavaScript runtime, as the client uses it. *)
Module JsRt.

(** A parsed JSON document: an object, or any other value. *)
Inductive data :=
| Dobject (o : jsobj)
| Dvalue (v : Js.value).

(** Property read [d.k]; reading a property of [null] or [undefined]
    throws a [TypeError]. *)
Definition prop (d : data) (k : string) : Js.outcome Js.value :=
  match d with
  | Dobject o => Js.Returned (Js.get o k)
  | Dvalue Js.null =>
      Js.Thrown (Js.Error "TypeError"
                   ("Cannot read properties of null (reading '" ++ k ++ "')"))
  | Dvalue Js.undefined =>
      Js.Thrown (Js.Error "TypeError"
                   ("Cannot read properties of undefined (reading '" ++ k ++ "')"))
  | Dvalue _ => Js.Returned Js.undefined
  end.

(** [ToString].  A number prints as its decimal digits, which is what the
    engine prints for every integer below [10^21]; the exponent notation
    of larger ones is not modelled. *)
Definition to_string (v : Js.value) : string :=
  match v with
  | Js.undefined => "undefined"
  | Js.null => "null"
  | Js.boolean true => "true"
  | Js.boolean false => "false"
  | Js.number z => pretty z
  | Js.NaN => "NaN"
  | Js.str s => s
  | Js.composite _ t => t
  end.

(** [s.split(sep)] for a one-character separator. *)
Fixpoint split (s : string) (sep : ascii) : list string :=
  match s with
  | EmptyString => [""]
  | String c r =>
      if Ascii.eqb c sep then "" :: split r sep
      else match split r sep with
           | h :: t => String c h :: t
           | [] => [String c ""]
           end
  end.

(** [a[i]] as a value: [undefined] past the end. *)
Definition at_index (a : list string) (i : nat) : Js.value :=
  match a !! i with
  | Some s => Js.str s
  | None => Js.undefined
  end.

End JsRt.

(** What [fetch] resolves to: status line, [content-type] header, and what
    [response.json()] gives. *)
Record HttpResponse := {
  hstatus : Z;
  contentType : option string;
  json : Js.outcome JsRt.data
}.

(** [response.ok] *)
Definition ok (r : HttpResponse) : bool :=
  (200 <=? hstatus r)%Z && (hstatus r <=? 299)%Z.

(** [RequestInit], as far as the callers fill it in. *)
Record RequestInit := {
  method : option string;
  rbody : option string;
  headers : option (gmap string string)
}.

Definition no_options : RequestInit :=
  {| method := None; rbody := None; headers := None |}.

(** An [ApiService] instance with the browser's [localStorage]. *)
Record ApiService := {
  token : option string;
  localStorage : gmap string string
}.

Definition Api : Type → Type := Js.Eff ApiService.

(** [constructor()] *)
Definition ApiService_new (storage : gmap string string) : ApiService :=
  {| token := storage !! "authToken"; localStorage := storage |}.

(** [logout()] *)
Definition logout : Api unit :=
  λ this, (Js.Returned tt,
           {| token := None;
              localStorage := delete "authToken" (localStorage this) |}).

Section Gateway.

(** [import.meta.env.VITE_API_URL] *)
Variable VITE_API_URL : option string.

(** The network: what [fetch(url, config)] settles to. *)
Variable fetch : string → RequestInit → Js.outcome HttpResponse.

Definition API_BASE_URL : string :=
  match present VITE_API_URL with
  | Some u => u
  | None => "http://localhost:5000/api"
  end.

(** The [config] object of [request]: the merged headers, then
    [...options] on top (an [options.headers] replaces the merged
    ones). *)
Definition config (this : ApiService) (options : RequestInit) : RequestInit :=
  let merged : gmap string string :=
    default ∅ (headers options)
    ∪ match present (token this) with
      | Some t => {[ "Authorization" := "Bearer " ++ t ]}
      | None => ∅
      end
    ∪ {[ "Content-Type" := "application/json" ]} in
  {| method := method options;
     rbody := rbody options;
     headers := match headers options with
                | Some h => Some h
                | None => Some merged
                end |}.

Definition lift {A} (o : Js.outcome A) : Api A := λ this, (o, this).

Definition request (endpoint : string) (options : RequestInit) : Api JsRt.data :=
  λ this,
    let url := API_BASE_URL ++ endpoint in
    let config := config this options in
    Js.try_catch
      (response ← lift (fetch url config);
       let contentType := contentType response in
       if negb (Js.opt_includes contentType "application/json")
       then Js.throw (Js.Error "Error" "Server returned invalid response format")
       else
         data ← lift (json response);
         if negb (ok response) then
           if (hstatus response =? 401)%Z then
             logout;;
             code ← lift (JsRt.prop data "code");
             if Js.is_str code "TOKEN_EXPIRED" then
               Js.throw (Js.Error "Error" "Your session has expired. Please log in again.")
             else
               Js.throw (Js.Error "Error" "Authentication failed. Please log in again.")
           else
             message ← lift (JsRt.prop data "message");
             Js.throw (Js.Error "Error"
               (JsRt.to_string
                  (Js.or message
                     (Js.str ("HTTP error! status: " ++ pretty (hstatus response))))))
         else
           success ← lift (JsRt.prop data "success");
           if Js.is_false success then
             message ← lift (JsRt.prop data "message");
             Js.throw (Js.Error "Error"
               (JsRt.to_string (Js.or message (Js.str "Operation failed"))))
           else
             mret data)
      (λ error, Js.throw error)
      this.

End Gateway.

Section TokenCheck.

(** [atob] and [JSON.parse] of the browser, and the clock. *)
Variable atob : string → Js.outcome string.
Variable JSON_parse : string → Js.outcome JsRt.data.
Variable Date_now : Z.

(** [ToNumber] on strings. *)
Variable string_to_number : string → option Z.

(** [ToNumber]; [None] is [NaN]. *)
Definition to_number (v : Js.value) : option Z :=
  match v with
  | Js.undefined => None
  | Js.null => Some 0%Z
  | Js.boolean true => Some 1%Z
  | Js.boolean false => Some 0%Z
  | Js.number z => Some z
  | Js.NaN => None
  | Js.str s => string_to_number s
  | Js.composite n _ => n
  end.

(** [a * k > b]; any comparison with [NaN] is false. *)
Definition times_gt (a : option Z) (k b : Z) : bool :=
  match a with
  | Some z => (b <? z * k)%Z
  | None => false
  end.

(** The body of the [try] block of [isAuthenticated]. *)
Definition decode_and_compare (token : string) : Js.outcome bool :=
  let segment := JsRt.at_index (JsRt.split token ".") 1 in
  decoded ← atob (JsRt.to_string segment);
  payload ← JSON_parse decoded;
  exp ← JsRt.prop payload "exp";
  mret (times_gt (to_number exp) 1000 Date_now).

Definition isAuthenticated (this : ApiService) : Js.outcome bool :=
  match present (token this) with
  | None => Js.Returned false
  | Some token =>
      match decode_and_compare token with
      | Js.Returned b => Js.Returned b
      | Js.Thrown _ => Js.Returned false
      end
  end.

End TokenCheck.

(* ===================================================================== *)
(** ** The admin router *)
(* ===================================================================== *)

(** Each handler is modelled as it runs once the guards in front of it,
    [auth] and [adminAuth], have passed the request on. *)

(** The filter objects the routes build ([None]: key not set). *)
Record TemplateFilter := {
  f_isActive : option bool;
  f_or : option string;          (* $or of $regex on name and subject *)
  f_category : option string;
  f_isPublic : option bool;
  f_isPremium : option bool
}.

Record UserFilter := {
  u_isActive : option bool;
  u_or : option string;          (* $or of $regex on name and email *)
  u_lastLogin_gte : option Z
}.

(** [Math.ceil(a / b)]; a division by zero gives no finite number. *)
Definition Math_ceil_div (a b : Z) : option Z :=
  if (b =? 0)%Z then None
  else Some (Qceiling (inject_Z a / inject_Z b)).

(** [key: value] in a filter: absent keys constrain nothing. *)
Definition holds {A} (c : option A) (test : A → bool) : bool :=
  match c with
  | Some a => test a
  | None => true
  end.

(** Most recent first. *)
Definition newer_first {A} (createdAt : A → Z) : relation A :=
  λ a b, (createdAt b ≤ createdAt a)%Z.

#[global] Instance newer_first_dec {A} (createdAt : A → Z) :
  RelDecision (newer_first createdAt).
Proof. intros a b. unfold newer_first. apply _. Defined.

(** [.sort({ createdAt: -1 }).limit(n).skip(k)] over the matching
    documents, as the store evaluates it: sort, skip, then limit.  The store
    refuses a negative skip, reads a limit of 0 as no limit and a negative
    limit as its absolute value.  Documents created at the same instant are
    kept here in their stored order; the store promises no order among
    them, so only what holds of every order, or of documents with distinct
    [createdAt], is a fact of the route. *)
Definition cursor {A} (createdAt : A → Z) (matching : list A)
    (limit skip : Z) : Js.outcome (list A) :=
  if (skip <? 0)%Z then
    Js.Thrown (Js.Error "MongoServerError" "skip value must be non-negative")
  else
    let sorted := merge_sort (newer_first createdAt) matching in
    let skipped := drop (Z.to_nat skip) sorted in
    Js.Returned (if (limit =? 0)%Z then skipped
                 else take (Z.abs_nat limit) skipped).

Section AdminRoutes.

(** The store's case-insensitive [$regex] match: for a pattern, the test
    it denotes, or [None] for a pattern the store rejects. *)
Variable regex_i : string → option (string → bool).

(** [Date.now()] *)
Variable Date_now : Z.

(** The identifier a new document receives. *)
Variable fresh_id : list Template.doc → string.

(** The validators of the Template schema: the error [save] rejects
    with, if any. *)
Variable schema_validate : jsobj → option Js.error.

Definition regex_ok (pat : option string) : bool :=
  match pat with
  | Some p => bool_decide (is_Some (regex_i p))
  | None => true
  end.

Definition regex_test (p : string) (text : string) : bool :=
  match regex_i p with
  | Some test => test text
  | None => false
  end.

Definition template_matches (q : TemplateFilter) (t : Template.doc) : bool :=
  holds (f_isActive q) (Bool.eqb (Template.isActive t))
  && holds (f_or q) (λ p, regex_test p (Template.name t)
                          || regex_test p (Template.subject t))
  && holds (f_category q) (String.eqb (Template.category t))
  && holds (f_isPublic q) (Bool.eqb (Template.isPublic t))
  && holds (f_isPremium q) (Bool.eqb (Template.isPremium t)).

Definition user_matches (q : UserFilter) (u : User.doc) : bool :=
  holds (u_isActive q) (Bool.eqb (User.isActive u))
  && holds (u_or q) (λ p, regex_test p (User.name u)
                          || regex_test p (User.email u))
  && holds (u_lastLogin_gte q) (λ bound, (bound <=? User.lastLogin u)%Z).

Definition bad_regex : Js.error :=
  Js.Error "MongoServerError" "Regular expression is invalid".

(** [.populate('createdBy', 'name email')] *)
Definition populate (d : Store) (t : Template.doc) : Populated :=
  {| tdoc := t;
     owner := (λ u, (User.name u, User.email u))
                <$> User_lookup (Template.createdBy t) d |}.

(** [Template.find(q).populate(..).sort({createdAt:-1}).limit(n).skip(k)] *)
Definition Template_find (q : TemplateFilter) (limit skip : Z) : Srv (list Populated) :=
  db_op OpTemplateFind
    (λ d, (if regex_ok (f_or q) then
             Js.map_outcome (List.map (populate d))
               (cursor Template.createdAt
                  (List.filter (template_matches q) (templates d))
                  limit skip)
           else Js.Thrown bad_regex,
           d)).

(** [Template.countDocuments(q)] *)
Definition Template_countDocuments (q : TemplateFilter) : Srv Z :=
  db_op OpTemplateCount
    (λ d, (if regex_ok (f_or q) then
             Js.Returned
               (Z.of_nat (length (List.filter (template_matches q) (templates d))))
           else Js.Thrown bad_regex,
           d)).

(** [User.find(q).sort({createdAt:-1}).limit(n).skip(k)] *)
Definition User_find (q : UserFilter) (limit skip : Z) : Srv (list User.doc) :=
  db_op OpUserFind
    (λ d, (if regex_ok (u_or q) then
             cursor User.createdAt
               (List.filter (user_matches q) (users d)) limit skip
           else Js.Thrown bad_regex,
           d)).

(** [User.countDocuments(q)] *)
Definition User_countDocuments (q : UserFilter) : Srv Z :=
  db_op OpUserCount
    (λ d, (if regex_ok (u_or q) then
             Js.Returned
               (Z.of_nat (length (List.filter (user_matches q) (users d))))
           else Js.Thrown bad_regex,
           d)).

(** [res.json(p)]: status 200. *)
Definition res_json (p : Payload) : Srv unit :=
  set_res {| status := 200; payload := p |}.

Definition error_body (message : string) (error : Js.error) : jsobj :=
  obj [("message", Js.str message); ("error", Js.str (Js.emessage error))].

Definition active_templates : TemplateFilter :=
  {| f_isActive := Some true; f_or := None; f_category := None;
     f_isPublic := None; f_isPremium := None |}.

Definition active_users : UserFilter :=
  {| u_isActive := Some true; u_or := None; u_lastLogin_gte := None |}.

(** [router.get('/dashboard', ...)].  [Promise.all] starts the six
    queries together; here they are taken in the order of the array, so a
    store that is down is seen to fail at the first of them. *)
Definition get_dashboard : Srv unit :=
  Js.try_catch
    (totalUsers ← User_countDocuments active_users;
     totalTemplates ← Template_countDocuments active_templates;
     publicTemplates ← Template_countDocuments
       {| f_isActive := Some true; f_or := None; f_category := None;
          f_isPublic := Some true; f_isPremium := None |};
     premiumTemplates ← Template_countDocuments
       {| f_isActive := Some true; f_or := None; f_category := None;
          f_isPublic := None; f_isPremium := Some true |};
     activeUsers ← User_countDocuments
       {| u_isActive := Some true; u_or := None;
          u_lastLogin_gte := Some (Date_now - 30 * 24 * 60 * 60 * 1000)%Z |};
     recentTemplates ← Template_find active_templates 10 0;
     res_json (PStats {| totalUsers := totalUsers;
                         totalTemplates := totalTemplates;
                         publicTemplates := publicTemplates;
                         premiumTemplates := premiumTemplates;
                         activeUsers := activeUsers;
                         recentTemplates := recentTemplates |}))
    (λ error,
       res_status_json 500 (error_body "Error fetching dashboard data" error)).

(** The filter [GET /users] builds from [req.query]. *)
Definition users_filter (q : Query) : UserFilter :=
  {| u_isActive := Some true;
     u_or := present (search q);
     u_lastLogin_gte := None |}.

(** [router.get('/users', ...)] *)
Definition get_users : Srv unit :=
  Js.try_catch
    (λ s,
       let page := default (plain 1%Z) (page (query (req s))) in
       let limit := default 20%Z (limit (query (req s))) in
       let query := users_filter (query (req s)) in
       (users ← User_find query (limit * 1) ((number_of page - 1) * limit);
        total ← User_countDocuments query;
        res_json (PUsers users
                    {| current := parseInt page;
                       pages := Math_ceil_div total limit;
                       total := total |})) s)
    (λ error, res_status_json 500 (error_body "Error fetching users" error)).

(** The filter [GET /templates] builds from [req.query]. *)
Definition templates_filter (q : Query) : TemplateFilter :=
  {| f_isActive := Some true;
     f_or := present (search q);
     f_category :=
       match present (category q) with
       | Some c => if String.eqb c "all" then None else Some c
       | None => None
       end;
     f_isPublic := (λ v, String.eqb v "true") <$> isPublic q;
     f_isPremium := None |}.

(** [router.get('/templates', ...)] *)
Definition get_templates : Srv unit :=
  Js.try_catch
    (λ s,
       let page := default (plain 1%Z) (page (query (req s))) in
       let limit := default 20%Z (limit (query (req s))) in
       let query := templates_filter (query (req s)) in
       (templates ← Template_find query (limit * 1) ((number_of page - 1) * limit);
        total ← Template_countDocuments query;
        res_json (PTemplates templates
                    {| current := parseInt page;
                       pages := Math_ceil_div total limit;
                       total := total |})) s)
    (λ error, res_status_json 500 (error_body "Error fetching templates" error)).

(** The object [POST /templates] builds from the body: the body's own
    properties, with [createdBy], [isPublic] and [isPremium] written over
    them. *)
Definition templateData (body : jsobj) (userId : Js.value) : jsobj :=
  <[ "isPremium" := Js.or (Js.get body "isPremium") (Js.boolean false) ]>
    (<[ "isPublic" := Js.boolean true ]>
       (<[ "createdBy" := userId ]> body)).

(** Modelled from the spec: the Template schema (models/Template is not
    among the sources).  A new document takes each field from the
    like-named property of the data it is built from; a template is active
    when created. *)
Definition Template_new (existing : list Template.doc) (data : jsobj) : Template.doc :=
  {| Template._id := fresh_id existing;
     Template.name := JsRt.to_string (Js.get data "name");
     Template.subject := JsRt.to_string (Js.get data "subject");
     Template.createdBy := Js.get data "createdBy";
     Template.isPublic := Js.truthy (Js.get data "isPublic");
     Template.isPremium := Js.truthy (Js.get data "isPremium");
     Template.category := JsRt.to_string (Js.get data "category");
     Template.isActive := true;
     Template.createdAt := Date_now |}.

(** [new Template(data)] followed by [template.save()] *)
Definition Template_create (data : jsobj) : Srv Template.doc :=
  db_op OpTemplateSave
    (λ d, match schema_validate data with
          | Some e => (Js.Thrown e, d)
          | None =>
              let t := Template_new (templates d) data in
              (Js.Returned t,
               {| users := users d;
                  templates := (templates d ++ [t])%list;
                  fault := fault d |})
          end).

(** [Template.findById(id).populate('createdBy', 'name email')] *)
Definition Template_findById_populate (id : string) : Srv (option Populated) :=
  db_read (OpTemplateFindById id)
    (λ d, populate d
            <$> List.find (λ t, String.eqb (Template._id t) id) (templates d)).

(** [req.user.userId]; a missing [req.user] makes the read throw. *)
Definition req_user_userId : Srv Js.value :=
  λ s, match user (req s) with
       | Some p => (Js.Returned (userId p), s)
       | None =>
           (Js.Thrown (Js.Error "TypeError"
                         "Cannot read properties of undefined (reading 'userId')"), s)
       end.

(** [router.post('/templates', ...)] *)
Definition post_templates : Srv unit :=
  Js.try_catch
    (λ s,
       (userId ← req_user_userId;
        let templateData := templateData (body (req s)) userId in
        template ← Template_create templateData;
        populatedTemplate ← Template_findById_populate (Template._id template);
        set_res {| status := 201;
                   payload := PCreated "Public template created successfully"
                                       populatedTemplate |}) s)
    (λ error, res_status_json 500 (error_body "Error creating template" error)).

End AdminRoutes.

(* ===================================================================== *)
(** ** The response bodies of the Session Guard *)
(* ===================================================================== *)

Definition no_token_body : jsobj :=
  obj [("success", Js.boolean false);
       ("message", Js.str "Access denied. No token provided.")].

Definition token_expired_body : jsobj :=
  obj [("success", Js.boolean false);
       ("message", Js.str "Token expired. Please log in again.");
       ("code", Js.str "TOKEN_EXPIRED")].

Definition invalid_token_body : jsobj :=
  obj [("success", Js.boolean false);
       ("message", Js.str "Invalid token.");
       ("code", Js.str "INVALID_TOKEN")].

Definition deactivated_body : jsobj :=
  obj [("success", Js.boolean false);
       ("message", Js.str "Account is deactivated.");
       ("code", Js.str "ACCOUNT_DEACTIVATED")].

Definition auth_error_body : jsobj :=
  obj [("success", Js.boolean false);
       ("message", Js.str "Authentication error.");
       ("code", Js.str "AUTH_ERROR")].

Definition rejection (code : Z) (o : jsobj) : Response :=
  {| status := code; payload := PObject o |}.

(** The [code] property of a response's body. *)
Definition body_code (r : option Response) : option Js.value :=
  match r with
  | Some {| payload := PObject o |} => o !! "code"
  | _ => None
  end.

(** The same request under another [Authorization] header. *)
Definition with_header (r : Request) (h : option string) : Request :=
  {| authorization := h; user := user r; query := query r; body := body r |}.

(** What a guard run leaves behind, apart from the request's own header. *)
Definition verdict (s : Server) :
    option Response * bool * option Principal * list DbOp * Store :=
  (res s, next_called s, user (req s), oplog s, db s).

(* ===================================================================== *)
(** ** A small instance: two accounts, three tokens *)
(* ===================================================================== *)

(** A verifier that knows one good token, one expired token, and rejects
    everything else as malformed. *)
Definition sample_verify (token secret : string) : Js.outcome jsobj :=
  if String.eqb token "good" then
    Js.Returned (obj [("userId", Js.str "u1"); ("role", Js.str "admin")])
  else if String.eqb token "bobs" then
    Js.Returned (obj [("userId", Js.str "u2"); ("role", Js.str "user")])
  else if String.eqb token "old" then
    Js.Thrown (Js.Error "TokenExpiredError" "jwt expired")
  else
    Js.Thrown (Js.Error "JsonWebTokenError" "jwt malformed").

Definition ann : User.doc :=
  User.Doc "u1" "Ann" "ann@example.org" (Some "hash1") "admin" true 100 10.

Definition bob : User.doc :=
  User.Doc "u2" "Bob" "bob@example.org" (Some "hash2") "user" false 50 20.

Definition sample_store : Store :=
  {| users := [ann; bob]; templates := []; fault := None |}.

Definition request_with (h : option string) : Request :=
  {| authorization := h; user := None; query := no_query; body := ∅ |}.

(** A client holding a token, and three answers of the network: the
    guard's expired-token rejection as JSON, the same body served as plain
    text, and an HTML error page. *)
Definition signed_in : ApiService :=
  {| token := Some "old"; localStorage := {[ "authToken" := "old" ]} |}.

Definition expired_json : HttpResponse :=
  {| hstatus := 401;
     contentType := Some "application/json; charset=utf-8";
     json := Js.Returned (JsRt.Dobject token_expired_body) |}.

Definition expired_plain : HttpResponse :=
  {| hstatus := 401;
     contentType := Some "text/plain";
     json := Js.Returned (JsRt.Dobject token_expired_body) |}.

Definition unauthorized_html : HttpResponse :=
  {| hstatus := 401;
     contentType := Some "text/html";
     json := Js.Thrown (Js.Error "SyntaxError" "Unexpected token < in JSON") |}.

Definition always (r : HttpResponse) (url : string) (c : RequestInit) :
    Js.outcome HttpResponse :=
  Js.Returned r.

(** The state [logout] leaves. *)
Definition signed_out (this : ApiService) : ApiService :=
  {| token := None; localStorage := delete "authToken" (localStorage this) |}.

Definition session_expired : Js.error :=
  Js.Error "Error" "Your session has expired. Please log in again.".

Definition authentication_failed : Js.error :=
  Js.Error "Error" "Authentication failed. Please log in again.".

Definition invalid_format : Js.error :=
  Js.Error "Error" "Server returned invalid response format".

(** The listings as functions of the store and the query: what
    [GET /templates] and [GET /users] put in their response. *)
Definition templates_page (regex_i : string → option (string → bool))
    (d : Store) (q : Query) : Js.outcome Payload :=
  let page := default (plain 1%Z) (page q) in
  let limit := default 20%Z (limit q) in
  let f := templates_filter q in
  match fault d with
  | Some e => Js.Thrown e
  | None =>
      if regex_ok regex_i (f_or f) then
        let matching := List.filter (template_matches regex_i f) (templates d) in
        Js.map_outcome
          (λ docs, PTemplates (List.map (populate d) docs)
                     {| current := parseInt page;
                        pages := Math_ceil_div (Z.of_nat (length matching)) limit;
                        total := Z.of_nat (length matching) |})
          (cursor Template.createdAt matching (limit * 1)
             ((number_of page - 1) * limit))
      else Js.Thrown bad_regex
  end.

Definition users_page (regex_i : string → option (string → bool))
    (d : Store) (q : Query) : Js.outcome Payload :=
  let page := default (plain 1%Z) (page q) in
  let limit := default 20%Z (limit q) in
  let f := users_filter q in
  match fault d with
  | Some e => Js.Thrown e
  | None =>
      if regex_ok regex_i (u_or f) then
        let matching := List.filter (user_matches regex_i f) (users d) in
        Js.map_outcome
          (λ docs, PUsers docs
                     {| current := parseInt page;
                        pages := Math_ceil_div (Z.of_nat (length matching)) limit;
                        total := Z.of_nat (length matching) |})
          (cursor User.createdAt matching (limit * 1)
             ((number_of page - 1) * limit))
      else Js.Thrown bad_regex
  end.

(** How a route answers with a computed payload or a caught error. *)
Definition answer (message : string) (o : Js.outcome Payload) : Response :=
  match o with
  | Js.Returned p => {| status := 200; payload := p |}
  | Js.Thrown e => rejection 500 (error_body message e)
  end.

(** A store with forty-five templates of which the last five are
    soft-deleted, and one that holds [n] active templates. *)
Definition numbered (active : bool) (n : nat) : Template.doc :=
  Template.Doc (pretty n) "Welcome" "Hello" (Js.str "u1") true false
               "onboarding" active (Z.of_nat n).

Definition fifty_templates : Store :=
  {| users := [ann; bob];
     templates := (numbered true <$> seq 0 45) ++ (numbered false <$> seq 45 5);
     fault := None |}.

Definition crowded (n : nat) : Store :=
  {| users := []; templates := numbered true <$> seq 0 n; fault := None |}.

(** A store that knows no regular expressions: every pattern is refused. *)
Definition no_regex (pattern : string) : option (string → bool) := None.

(** The page text '1e3'. *)
Definition page_1e3 : NumericText :=
  {| number_of := 1000; parseInt := Some 1%Z |}.

Definition listing_request (page limit : option Z) : Request :=
  {| authorization := None; user := None;
     query := {| page := plain <$> page; limit := limit; search := None;
                 category := None; isPublic := None |};
     body := ∅ |}.

(** An admin's request to create a template that asks for a private one. *)
Definition ann_principal : Principal :=
  {| userId := Js.str "u1"; role := Js.str "admin";
     userDoc := User.select_no_password ann |}.

Definition private_please : Request :=
  {| authorization := Some "Bearer good"; user := Some ann_principal;
     query := no_query;
     body := obj [("name", Js.str "Welcome"); ("subject", Js.str "Hello");
                  ("isPublic", Js.boolean false);
                  ("createdBy", Js.str "u2")] |}.

Definition count_id (existing : list Template.doc) : string :=
  pretty (length existing).

Definition accept_all (data : jsobj) : option Js.error := None.

(** A verifier whose tokens name an account the store does not hold, and a
    store that is down. *)
Definition stranger_verify (token secret : string) : Js.outcome jsobj :=
  Js.Returned (obj [("userId", Js.str "u9"); ("role", Js.str "user")]).

Definition broken_store : Store :=
  {| users := [ann; bob]; templates := [];
     fault := Some (Js.Error "MongoNetworkError" "connection refused") |}.

Definition not_found_body : jsobj :=
  obj [("success", Js.boolean false);
       ("message", Js.str "User not found.");
       ("code", Js.str "USER_NOT_FOUND")].

(** More answers of the network: a refusal in a success envelope and a
    server error. *)
Definition refused_ok : HttpResponse :=
  {| hstatus := 200;
     contentType := Some "application/json";
     json := Js.Returned
               (JsRt.Dobject (obj [("success", Js.boolean false);
                                   ("message", Js.str "Template name taken")])) |}.

Definition server_error : HttpResponse :=
  {| hstatus := 500;
     contentType := Some "application/json";
     json := Js.Returned
               (JsRt.Dobject (obj [("error", Js.str "boom")])) |}.

Definition own_headers : RequestInit :=
  {| method := Some "POST"; rbody := None;
     headers := Some {[ "X-Requested-With" := "fetch" ]} |}.

(* ===================================================================== *)
(** ** The admin router: soft delete, deactivation and roles *)
(* ===================================================================== *)

(** [findByIdAndUpdate]: the first document the test picks out is replaced
    by its update; the result is the updated document with the collection,
    or nothing when no document is picked. *)
Fixpoint update_first {A} (pick : A → bool) (upd : A → A) (l : list A) :
    option (A * list A) :=
  match l with
  | [] => None
  | x :: rest =>
      if pick x then Some (upd x, upd x :: rest)
      else match update_first pick upd rest with
           | Some (y, rest') => Some (y, x :: rest')
           | None => None
           end
  end.

(** [{ isActive: false }] as an update of a template and of an account. *)
Definition Template_deactivate (t : Template.doc) : Template.doc :=
  Template.Doc (Template._id t) (Template.name t) (Template.subject t)
    (Template.createdBy t) (Template.isPublic t) (Template.isPremium t)
    (Template.category t) false (Template.createdAt t).

Definition User_deactivate (u : User.doc) : User.doc :=
  User.Doc (User._id u) (User.name u) (User.email u) (User.password u)
    (User.role u) false (User.lastLogin u) (User.createdAt u).

(** [{ role }] as an update of an account. *)
Definition User_set_role (role : string) (u : User.doc) : User.doc :=
  User.Doc (User._id u) (User.name u) (User.email u) (User.password u)
    role (User.isActive u) (User.lastLogin u) (User.createdAt u).

(** [Template.findByIdAndUpdate(id, update, { new: true })].  In the log
    the operation is entered under the template's id. *)
Definition Template_findByIdAndUpdate (id : string)
    (upd : Template.doc → Template.doc) : Srv (option Template.doc) :=
  db_op (OpTemplateFindById id)
    (λ d, match update_first (λ t, String.eqb (Template._id t) id) upd
                  (templates d) with
          | Some (t, ts) =>
              (Js.Returned (Some t),
               {| users := users d; templates := ts; fault := fault d |})
          | None => (Js.Returned None, d)
          end).

(** [User.findByIdAndUpdate(id, update, { new: true })].  In the log the
    operation is entered under the account's id. *)
Definition User_findByIdAndUpdate (id : string)
    (upd : User.doc → User.doc) : Srv (option User.doc) :=
  db_op (OpUserFindById (Js.str id))
    (λ d, match update_first (λ u, String.eqb (User._id u) id) upd
                  (users d) with
          | Some (u, us) =>
              (Js.Returned (Some u),
               {| users := us; templates := templates d; fault := fault d |})
          | None => (Js.Returned None, d)
          end).

Definition message_body (message : string) : jsobj :=
  obj [("message", Js.str message)].

(** [router.delete('/templates/:id', ...)], with [id] for
    [req.params.id]. *)
Definition delete_template (id : string) : Srv unit :=
  Js.try_catch
    (template ← Template_findByIdAndUpdate id Template_deactivate;
     match template with
     | None => res_status_json 404 (message_body "Template not found")
     | Some _ => res_json (PObject (message_body "Template deleted successfully"))
     end)
    (λ error, res_status_json 500 (error_body "Error deleting template" error)).

(** [router.put('/users/:id/deactivate', ...)], with [id] for
    [req.params.id]. *)
Definition deactivate_user (id : string) : Srv unit :=
  Js.try_catch
    (user ← User_findByIdAndUpdate id User_deactivate;
     match user with
     | None => res_status_json 404 (message_body "User not found")
     | Some _ => res_json (PObject (message_body "User deactivated successfully"))
     end)
    (λ error, res_status_json 500 (error_body "Error deactivating user" error)).

Section RoleRoute.

(** The validators of the User schema on [role] ([runValidators: true]):
    the error the update rejects with, if any. *)
Variable role_validate : string → option Js.error.

(** [User.findByIdAndUpdate(id, { role }, { new: true, runValidators: true })] *)
Definition User_update_role (id : string) (role : string) : Srv (option User.doc) :=
  λ s, match role_validate role with
       | Some e =>
           db_op (OpUserFindById (Js.str id)) (λ d, (Js.Thrown e, d)) s
       | None => User_findByIdAndUpdate id (User_set_role role) s
       end.

(** [router.put('/users/:id/role', ...)], with [id] for [req.params.id].
    The account in the body of the answer is kept opaque. *)
Definition put_user_role (id : string) : Srv unit :=
  Js.try_catch
    (λ s,
       let role := Js.get (body (req s)) "role" in
       if negb (Js.is_str role "user" || Js.is_str role "admin") then
         res_status_json 400 (message_body "Invalid role") s
       else
         (user ← User_update_role id (JsRt.to_string role);
          match user with
          | None => res_status_json 404 (message_body "User not found")
          | Some _ =>
              res_json (PObject
                (obj [("message", Js.str "User role updated successfully");
                      ("user", Js.composite None "[object Object]")]))
          end) s)
    (λ error, res_status_json 500 (error_body "Error updating user role" error)).

End RoleRoute.

(** A store with three templates, and requests that change a role. *)
Definition three_templates : Store :=
  {| users := [ann; bob];
     templates := [numbered true 0; numbered true 1; numbered true 2];
     fault := None |}.

Definition role_request (role : Js.value) : Request :=
  {| authorization := Some "Bearer good"; user := Some ann_principal;
     query := no_query; body := obj [("role", role)] |}.

Definition any_role (role : string) : option Js.error := None.

(** The templates one page of [GET /templates] lists, in order, for a
    store and a query; and a query with its page replaced. *)
Definition listed (regex_i : string → option (string → bool))
    (d : Store) (q : Query) : list Template.doc :=
  match res (snd (get_templates regex_i
                    (serve d {| authorization := None; user := None;
                                query := q; body := ∅ |}))) with
  | Some {| payload := PTemplates ts _ |} => tdoc <$> ts
  | _ => []
  end.

Definition on_page (q : Query) (p : Z) : Query :=
  {| page := Some (plain p); limit := limit q; search := search q;
     category := category q; isPublic := isPublic q |}.

(** Templates of two categories, public and private. *)
Definition mixed_templates : Store :=
  {| users := [ann; bob];
     templates :=
       [Template.Doc "a" "Welcome" "Hello" (Js.str "u1") true false
                     "onboarding" true 30;
        Template.Doc "b" "Invoice" "Your invoice" (Js.str "u1") false true
                     "billing" true 20;
        Template.Doc "c" "Reminder" "Payment due" (Js.str "u2") true false
                     "billing" true 10;
        Template.Doc "d" "Goodbye" "Sorry to see you go" (Js.str "u2") false
                     false "onboarding" false 40];
     fault := None |}.

Definition filter_request (category isPublic : option string) : Request :=
  {| authorization := None; user := None;
     query := {| page := None; limit := None; search := None;
                 category := category; isPublic := isPublic |};
     body := ∅ |}.

(* ===================================================================== *)
(** ** The client: function App *)
(* ===================================================================== *)

Module App.

Inductive AppView := gallery | builder | preview.

(** The state [App] keeps with [useState]; templates and the user are
    opaque values. *)
Record state := State {
  currentView : AppView;
  currentTemplate : Js.value;
  previewTemplate : Js.value;
  user : Js.value;
  showAuthModal : bool;
  isLoading : bool
}.

(** The component's state together with the [apiService] it calls. *)
Record world := World { ui : state; api : ApiService }.

(** The initial values of the [useState] calls. *)
Definition initial : state :=
  State gallery Js.undefined Js.undefined Js.null false true.

Definition setCurrentView (v : AppView) (s : state) : state :=
  State v (currentTemplate s) (previewTemplate s) (user s)
        (showAuthModal s) (isLoading s).

Definition setCurrentTemplate (t : Js.value) (s : state) : state :=
  State (currentView s) t (previewTemplate s) (user s)
        (showAuthModal s) (isLoading s).

Definition setPreviewTemplate (t : Js.value) (s : state) : state :=
  State (currentView s) (currentTemplate s) t (user s)
        (showAuthModal s) (isLoading s).

Definition setUser (u : Js.value) (s : state) : state :=
  State (currentView s) (currentTemplate s) (previewTemplate s) u
        (showAuthModal s) (isLoading s).

Definition setShowAuthModal (b : bool) (s : state) : state :=
  State (currentView s) (currentTemplate s) (previewTemplate s) (user s)
        b (isLoading s).

Definition setIsLoading (b : bool) (s : state) : state :=
  State (currentView s) (currentTemplate s) (previewTemplate s) (user s)
        (showAuthModal s) b.

Definition handleAuthSuccess (userData : Js.value) (s : state) : state :=
  setShowAuthModal false (setUser userData s).

Definition handleLogout (w : world) : world :=
  World (setCurrentView gallery (setUser Js.null (ui w)))
        (snd (logout (api w))).

Definition handleCreateNew (s : state) : state :=
  if negb (Js.truthy (user s)) then setShowAuthModal true s
  else setCurrentView builder (setCurrentTemplate Js.undefined s).

Definition handleEditTemplate (template : Js.value) (s : state) : state :=
  if negb (Js.truthy (user s)) then setShowAuthModal true s
  else setCurrentView builder (setCurrentTemplate template s).

Definition handlePreviewTemplate (template : Js.value) (s : state) : state :=
  setPreviewTemplate template s.

Definition handleSaveTemplate (template : Js.value) (s : state) : state :=
  setCurrentView gallery s.

Definition handleBackToGallery (s : state) : state :=
  setCurrentView gallery s.

Definition handleClosePreview (s : state) : state :=
  setPreviewTemplate Js.undefined s.

(** [handleSuccess] of the AuthModal: [onSuccess(user); onClose()]. *)
Definition modal_handleSuccess (u : Js.value) (s : state) : state :=
  setShowAuthModal false (handleAuthSuccess u s).

Section Mount.

(** [(await apiService.getCurrentUser()).user]: the call and the read of
    the answer's [user], as one step of the [ApiService]. *)
Variable current_user : Api Js.value.

(** [checkAuthStatus] *)
Definition checkAuthStatus (w : world) : world :=
  let authToken := localStorage (api w) !! "authToken" in
  let '(s, a) :=
    match present authToken with
    | Some _ =>
        match current_user (api w) with
        | (Js.Returned u, a) => (setUser u (ui w), a)
        | (Js.Thrown error, a) =>
            (ui w,
             {| token := token a;
                localStorage := delete "authToken" (localStorage a) |})
        end
    | None => (ui w, api w)
    end in
  World (setIsLoading false s) a.

(** What can happen to the component: the mount effect finishing, and the
    callbacks of what it renders. *)
Inductive event :=
| Mounted
| SignIn
| Logout
| CreateNew
| EditTemplate (template : Js.value)
| PreviewTemplate (template : Js.value)
| SaveTemplate (template : Js.value)
| BackToGallery
| ClosePreview
| CloseModal
| AuthSuccess (u : Js.value).

(** Whether the element that fires the event is rendered: the spinner
    alone while loading; then the Sign In button without a user and the
    Logout button with one, the gallery and the builder by view, the
    preview by [previewTemplate], the modal by [showAuthModal]. *)
Definition rendered (e : event) (s : state) : bool :=
  match e with
  | Mounted => isLoading s
  | SignIn => negb (isLoading s) && negb (Js.truthy (user s))
  | Logout => negb (isLoading s) && Js.truthy (user s)
  | CreateNew | EditTemplate _ | PreviewTemplate _ =>
      negb (isLoading s)
      && match currentView s with gallery => true | _ => false end
  | SaveTemplate _ | BackToGallery =>
      negb (isLoading s)
      && match currentView s with builder => true | _ => false end
  | ClosePreview => negb (isLoading s) && Js.truthy (previewTemplate s)
  | CloseModal | AuthSuccess _ => negb (isLoading s) && showAuthModal s
  end.

Definition on_ui (f : state → state) (w : world) : world :=
  World (f (ui w)) (api w).

Definition step (e : event) (w : world) : world :=
  match e with
  | Mounted => checkAuthStatus w
  | SignIn => on_ui (setShowAuthModal true) w
  | Logout => handleLogout w
  | CreateNew => on_ui handleCreateNew w
  | EditTemplate t => on_ui (handleEditTemplate t) w
  | PreviewTemplate t => on_ui (handlePreviewTemplate t) w
  | SaveTemplate t => on_ui (handleSaveTemplate t) w
  | BackToGallery => on_ui handleBackToGallery w
  | ClosePreview => on_ui handleClosePreview w
  | CloseModal => on_ui (setShowAuthModal false) w
  | AuthSuccess u => on_ui (modal_handleSuccess u) w
  end.

(** The states the component can be in. *)
Inductive reachable : world → Prop :=
| reach_initial (a : ApiService) : reachable (World initial a)
| reach_step (e : event) (w : world) :
    reachable w → rendered e (ui w) = true → reachable (step e w).

(** A run: the events in the order they happen. *)
Definition run (es : list event) (w : world) : world :=
  fold_left (λ w e, step e w) es w.

End Mount.

End App.

(** What holds of every state of the component. *)
Definition app_invariant (s : App.state) : Prop :=
  (App.currentView s = App.builder → Js.truthy (App.user s) = true)
  ∧ (App.showAuthModal s = true → Js.truthy (App.user s) = false)
  ∧ App.currentView s ≠ App.preview
  ∧ (App.isLoading s = true →
     App.currentView s = App.gallery ∧ App.showAuthModal s = false).

(** A start-up that finds Ann signed in. *)
Definition ann_is_back : Api Js.value :=
  λ this, (Js.Returned (Js.composite None "[object Object]"), this).

(** A start-up that fails, and a client whose token is only in memory. *)
Definition network_down : Api Js.value :=
  λ this, (Js.Thrown (Js.Error "TypeError" "Failed to fetch"), this).

(** The values that [JsRt.to_string] prints as the engine does: every
    value except a number outside the safe integers, which run from
    [-(2^53 - 1)] to [2^53 - 1]. *)
Definition printable (v : Js.value) : bool :=
  match v with
  | Js.number z => (Z.abs z <? 2 ^ 53)%Z
  | _ => true
  end.

(* ===================================================================== *)
(** ** Properties of the Session Guard *)
(* ===================================================================== *)

(** Unfolding a handler down to its effect on the state. *)
Create HintDb handler discriminated.
#[global] Hint Unfold Js.try_catch mbind Js.eff_bind Js.bind lift
  db_read db_op res_json set_res res_status_json : handler.

Ltac run_handler := autounfold with handler.

Section GuardFacts.

Variable jwt_verify : string → string → Js.outcome jsobj.
Variable JWT_SECRET : option string.

Local Abbreviation guard := (auth jwt_verify JWT_SECRET).

(** Without a token the guard answers at once and leaves the rest of the
    state as it found it. *)
Lemma auth_without_token (s : Server) :
  present (extract_token (authorization (req s))) = None →
  guard s =
    (Js.Returned tt,
     {| db := db s; oplog := oplog s; req := req s;
        res := Some (rejection 401 no_token_body);
        next_called := next_called s |}).
Proof.
  intros Hnone. unfold auth, Js.try_catch. rewrite Hnone. reflexivity.
Qed.

(** With a token that fails verification the guard answers 401, with the
    code chosen by the name of the error. *)
Lemma auth_verify_throws (s : Server) (tok : string) (e : Js.error) :
  present (extract_token (authorization (req s))) = Some tok →
  jwt_verify tok (secret JWT_SECRET) = Js.Thrown e →
  guard s =
    (Js.Returned tt,
     {| db := db s; oplog := oplog s; req := req s;
        res := Some (rejection 401
                       (if String.eqb (Js.ename e) "TokenExpiredError"
                        then token_expired_body else invalid_token_body));
        next_called := next_called s |}).
Proof.
  intros Htok Hthrow. unfold auth, Js.try_catch. rewrite Htok, Hthrow.
  destruct (String.eqb (Js.ename e) "TokenExpiredError"); reflexivity.
Qed.

(** With a verified token the guard reads the account once and decides on
    what it finds. *)
Lemma auth_verified (s : Server) (tok : string) (decoded : jsobj) :
  present (extract_token (authorization (req s))) = Some tok →
  jwt_verify tok (secret JWT_SECRET) = Js.Returned decoded →
  fault (db s) = None →
  let id := Js.get decoded "userId" in
  let log := (oplog s ++ [OpUserFindById id])%list in
  guard s =
    (Js.Returned tt,
     match User_lookup id (db s) with
     | None =>
         {| db := db s; oplog := log; req := req s;
            res := Some (rejection 401
                           (obj [("success", Js.boolean false);
                                 ("message", Js.str "User not found.");
                                 ("code", Js.str "USER_NOT_FOUND")]));
            next_called := next_called s |}
     | Some u =>
         if User.isActive u then
           {| db := db s; oplog := log;
              req := {| authorization := authorization (req s);
                        user := Some {| userId := id;
                                        role := Js.get decoded "role";
                                        userDoc := User.select_no_password u |};
                        query := query (req s);
                        body := body (req s) |};
              res := res s; next_called := true |}
         else
           {| db := db s; oplog := log; req := req s;
              res := Some (rejection 401 deactivated_body);
              next_called := next_called s |}
     end).
Proof.
  intros Htok Hok Hup id log.
  unfold auth, User_findById_select. run_handler. rewrite Htok, Hok.
  rewrite Hup. destruct (db s) as [us ts f] eqn:Hdb. simpl in *.
  fold id. destruct (User_lookup id _) as [u|] eqn:Hu; simpl.
  - destruct (User.isActive u); reflexivity.
  - reflexivity.
Qed.

(** When the store is down the guard answers 500 and calls nothing. *)
Lemma auth_store_down (s : Server) (tok : string) (decoded : jsobj) (e : Js.error) :
  present (extract_token (authorization (req s))) = Some tok →
  jwt_verify tok (secret JWT_SECRET) = Js.Returned decoded →
  fault (db s) = Some e →
  guard s =
    (Js.Returned tt,
     {| db := db s;
        oplog := (oplog s ++ [OpUserFindById (Js.get decoded "userId")])%list;
        req := req s;
        res := Some (rejection 500 auth_error_body);
        next_called := next_called s |}).
Proof.
  intros Htok Hok Hdown.
  unfold auth, User_findById_select. run_handler. rewrite Htok, Hok.
  rewrite Hdown. reflexivity.
Qed.

(** The guard reads nothing of the request but the token its header
    presents. *)
Lemma auth_same_token (d : Store) (r : Request) (h1 h2 : option string) :
  present (extract_token h1) = present (extract_token h2) →
  verdict (snd (guard (serve d (with_header r h1))))
  = verdict (snd (guard (serve d (with_header r h2)))).
Proof.
  intros Hsame.
  destruct (present (extract_token h2)) as [tok|] eqn:H2.
  - destruct (jwt_verify tok (secret JWT_SECRET)) as [decoded|e] eqn:Hv.
    + destruct (fault d) as [f|] eqn:Hf.
      * rewrite !(auth_store_down _ tok decoded f) by assumption.
        reflexivity.
      * rewrite !(auth_verified _ tok decoded) by assumption.
        simpl. destruct (User_lookup _ d) as [u|]; [|reflexivity].
        destruct (User.isActive u); reflexivity.
    + rewrite !(auth_verify_throws _ tok e) by assumption. reflexivity.
  - rewrite !auth_without_token by assumption. reflexivity.
Qed.

End GuardFacts.

Lemma present_None (o : option string) :
  present o = None ↔ o = None ∨ o = Some "".
Proof.
  destruct o as [t|]; simpl; [|tauto].
  destruct (String.eqb_spec t "") as [->|Hne].
  - tauto.
  - split; [discriminate|].
    intros [H|H]; [discriminate | congruence].
Qed.

(** C1. A request whose Authorization header is absent or empty is rejected
    with status 401 and the message 'Access denied. No token provided.'; the
    guard issues no operation against the account store before it rejects,
    does not call [next] and leaves the request as it was. *)
Theorem auth_no_token_rejects_before_store
    (jwt_verify : string → string → Js.outcome jsobj)
    (JWT_SECRET : option string) (d : Store) (r : Request) :
  authorization r = None ∨ authorization r = Some "" →
  auth jwt_verify JWT_SECRET (serve d r) =
    (Js.Returned tt,
     {| db := d; oplog := []; req := r;
        res := Some {| status := 401;
                       payload := PObject
                         (obj [("success", Js.boolean false);
                               ("message", Js.str "Access denied. No token provided.")]) |};
        next_called := false |}).
Proof.
  intros Habsent.
  rewrite auth_without_token; [reflexivity|].
  simpl. destruct Habsent as [-> | ->]; reflexivity.
Qed.

Lemma auth_no_token_rejects_before_store_witness :
  auth sample_verify None (serve sample_store (request_with (Some "")))
  = (Js.Returned tt,
     {| db := sample_store; oplog := []; req := request_with (Some "");
        res := Some (rejection 401 no_token_body); next_called := false |}).
Proof.
  apply (auth_no_token_rejects_before_store sample_verify None sample_store
           (request_with (Some ""))).
  right. reflexivity.
Defined.

Lemma substring_all (s : string) : String.substring 0 (String.length s) s = s.
Proof. induction s as [|c s IH]; simpl; [reflexivity | by rewrite IH]. Qed.

Lemma extract_token_bearer (t : string) :
  extract_token (Some ("Bearer " ++ t)) = Some t.
Proof.
  unfold extract_token, Js.startsWith, Js.slice.
  cbv [String.append]. simpl. rewrite Nat.sub_0_r.
  replace (String.prefix "" t) with true by (by destruct t).
  by rewrite substring_all.
Qed.

(** C3, as the code has it.  A header that is present but does not start
    with 'Bearer ' is itself taken as the token: the guard decides on header
    [h] exactly as it decides on 'Bearer ' followed by [h], and so rejects
    with the no-token 401 only when [h] is empty. *)
Theorem auth_header_without_prefix_is_token
    (jwt_verify : string → string → Js.outcome jsobj)
    (JWT_SECRET : option string) (d : Store) (r : Request) (h : string) :
  Js.startsWith h "Bearer " = false →
  extract_token (Some h) = Some h
  ∧ verdict (snd (auth jwt_verify JWT_SECRET (serve d (with_header r (Some h)))))
    = verdict (snd (auth jwt_verify JWT_SECRET
                      (serve d (with_header r (Some ("Bearer " ++ h))))))
  ∧ (res (snd (auth jwt_verify JWT_SECRET (serve d (with_header r (Some h)))))
     = Some (rejection 401 no_token_body) ↔ h = "").
Proof.
  intros Hraw.
  assert (Hext : extract_token (Some h) = Some h).
  { unfold extract_token. by rewrite Hraw. }
  split; [exact Hext|]. split.
  - apply auth_same_token. by rewrite Hext, extract_token_bearer.
  - destruct (String.eqb_spec h "") as [->|Hne].
    { split; [reflexivity|]. intros _.
      by rewrite auth_without_token. }
    split; [|contradiction]. intros Hres. exfalso.
    assert (Htok : present (extract_token
                     (authorization (req (serve d (with_header r (Some h))))))
                   = Some h).
    { simpl authorization. rewrite Hext. simpl.
      destruct (String.eqb_spec h ""); [contradiction | reflexivity]. }
    destruct (jwt_verify h (secret JWT_SECRET)) as [decoded|e] eqn:Hv.
    + destruct (fault d) as [f|] eqn:Hf.
      * rewrite (auth_store_down _ _ _ h decoded f) in Hres by assumption.
        apply (f_equal body_code) in Hres. vm_compute in Hres. discriminate.
      * rewrite (auth_verified _ _ _ h decoded) in Hres by assumption.
        simpl in Hres. destruct (User_lookup _ d) as [u|].
        -- destruct (User.isActive u); [discriminate|].
           apply (f_equal body_code) in Hres. vm_compute in Hres. discriminate.
        -- apply (f_equal body_code) in Hres. vm_compute in Hres. discriminate.
    + rewrite (auth_verify_throws _ _ _ h e) in Hres by assumption.
      apply (f_equal body_code) in Hres. simpl in Hres.
      destruct (String.eqb _ _); vm_compute in Hres; discriminate.
Qed.

Lemma auth_header_without_prefix_is_token_witness :
  extract_token (Some "good") = Some "good"
  ∧ verdict (snd (auth sample_verify None
                    (serve sample_store (with_header (request_with None) (Some "good")))))
    = verdict (snd (auth sample_verify None
                      (serve sample_store
                         (with_header (request_with None) (Some ("Bearer " ++ "good"))))))
  ∧ (res (snd (auth sample_verify None
                 (serve sample_store (with_header (request_with None) (Some "good")))))
     = Some (rejection 401 no_token_body) ↔ "good" = "").
Proof.
  apply (auth_header_without_prefix_is_token sample_verify None sample_store
           (request_with None) "good").
  reflexivity.
Defined.

(** C3 fails as stated: the header "good" does not start with 'Bearer ',
    yet the guard verifies it as a token, sends no rejection and calls
    [next] with the principal attached. *)
Lemma auth_accepts_raw_header :
  Js.startsWith "good" "Bearer " = false
  ∧ res (snd (auth sample_verify None
                (serve sample_store (request_with (Some "good"))))) = None
  ∧ next_called (snd (auth sample_verify None
                        (serve sample_store (request_with (Some "good"))))) = true
  ∧ userId <$> user (req (snd (auth sample_verify None
                                 (serve sample_store (request_with (Some "good"))))))
    = Some (Js.str "u1").
Proof. vm_compute. auto. Qed.

(** C4. A token that verifies and names an existing account whose active
    flag is false never gets the principal attached and never reaches
    [next]; the guard answers 401 with code ACCOUNT_DEACTIVATED whenever the
    store answers the account read. *)
Theorem auth_rejects_deactivated
    (jwt_verify : string → string → Js.outcome jsobj)
    (JWT_SECRET : option string) (d : Store) (r : Request)
    (tok : string) (decoded : jsobj) (account : User.doc) :
  present (extract_token (authorization r)) = Some tok →
  jwt_verify tok (secret JWT_SECRET) = Js.Returned decoded →
  User_lookup (Js.get decoded "userId") d = Some account →
  User.isActive account = false →
  let s' := snd (auth jwt_verify JWT_SECRET (serve d r)) in
  next_called s' = false
  ∧ user (req s') = user r
  ∧ (fault d = None →
     res s' = Some {| status := 401;
                      payload := PObject
                        (obj [("success", Js.boolean false);
                              ("message", Js.str "Account is deactivated.");
                              ("code", Js.str "ACCOUNT_DEACTIVATED")]) |}).
Proof.
  intros Htok Hok Hacc Hoff s'. subst s'.
  destruct (fault d) as [f|] eqn:Hf.
  - rewrite (auth_store_down _ _ _ tok decoded f) by assumption.
    simpl. repeat split. discriminate.
  - rewrite (auth_verified _ _ _ tok decoded) by assumption.
    simpl. rewrite Hacc, Hoff. simpl. auto.
Qed.

Lemma auth_rejects_deactivated_witness :
  next_called (snd (auth sample_verify None
                      (serve sample_store (request_with (Some "Bearer bobs"))))) = false
  ∧ user (req (snd (auth sample_verify None
                      (serve sample_store (request_with (Some "Bearer bobs")))))) = None
  ∧ (fault sample_store = None →
     res (snd (auth sample_verify None
                 (serve sample_store (request_with (Some "Bearer bobs")))))
     = Some (rejection 401 deactivated_body)).
Proof.
  apply (auth_rejects_deactivated sample_verify None sample_store
           (request_with (Some "Bearer bobs")) "bobs"
           (obj [("userId", Js.str "u2"); ("role", Js.str "user")]) bob);
    reflexivity.
Defined.

(* ===================================================================== *)
(** ** Properties of the client gateway *)
(* ===================================================================== *)

Section GatewayFacts.

Variable VITE_API_URL : option string.
Variable fetch : string → RequestInit → Js.outcome HttpResponse.

Local Abbreviation call := (request VITE_API_URL fetch).

(** A 401 that arrives as JSON: the token is cleared, then the error is
    chosen by the body's code. *)
Lemma request_json_401 (this : ApiService) (endpoint : string)
    (options : RequestInit) (resp : HttpResponse) (data : JsRt.data) :
  fetch (API_BASE_URL VITE_API_URL ++ endpoint) (config this options)
    = Js.Returned resp →
  hstatus resp = 401%Z →
  Js.opt_includes (contentType resp) "application/json" = true →
  json resp = Js.Returned data →
  call endpoint options this =
    (Js.Thrown
       match JsRt.prop data "code" with
       | Js.Returned code =>
           if Js.is_str code "TOKEN_EXPIRED" then session_expired
           else authentication_failed
       | Js.Thrown e => e
       end,
     signed_out this).
Proof.
  intros Hfetch Hstatus Hct Hjson.
  unfold request. run_handler.
  rewrite Hfetch, Hct, Hjson. unfold ok. rewrite Hstatus. simpl.
  destruct (JsRt.prop data "code") as [code|e]; [|reflexivity].
  destruct (Js.is_str code "TOKEN_EXPIRED"); reflexivity.
Qed.

(** A response that does not declare JSON: the format error, and the
    client's state is not touched. *)
Lemma request_not_json (this : ApiService) (endpoint : string)
    (options : RequestInit) (resp : HttpResponse) :
  fetch (API_BASE_URL VITE_API_URL ++ endpoint) (config this options)
    = Js.Returned resp →
  Js.opt_includes (contentType resp) "application/json" = false →
  call endpoint options this = (Js.Thrown invalid_format, this).
Proof.
  intros Hfetch Hct.
  unfold request. run_handler.
  rewrite Hfetch, Hct. reflexivity.
Qed.

End GatewayFacts.

Lemma is_str_true (v : Js.value) (lit : string) :
  Js.is_str v lit = true ↔ v = Js.str lit.
Proof.
  destruct v; simpl; try (split; [discriminate | intros [=]]).
  rewrite String.eqb_eq. split; [by intros -> | by intros [= ->]].
Qed.

(** C2, as the code has it.  A token whose verification throws
    TokenExpiredError is answered 401 with code TOKEN_EXPIRED and every other
    verification failure 401 with code INVALID_TOKEN; the gateway, on a 401
    that declares a JSON content type, raises 'Your session has expired.
    Please log in again.' when the body's code is TOKEN_EXPIRED and the
    generic 'Authentication failed. Please log in again.' for any other
    code. *)
Theorem expired_token_distinct_code
    (jwt_verify : string → string → Js.outcome jsobj)
    (JWT_SECRET : option string) (d : Store) (r : Request)
    (tok : string) (e : Js.error)
    (VITE_API_URL : option string)
    (fetch : string → RequestInit → Js.outcome HttpResponse)
    (this : ApiService) (endpoint : string) (options : RequestInit)
    (resp : HttpResponse) (data : JsRt.data) :
  present (extract_token (authorization r)) = Some tok →
  jwt_verify tok (secret JWT_SECRET) = Js.Thrown e →
  fetch (API_BASE_URL VITE_API_URL ++ endpoint) (config this options)
    = Js.Returned resp →
  hstatus resp = 401%Z →
  Js.opt_includes (contentType resp) "application/json" = true →
  json resp = Js.Returned data →
  let s' := snd (auth jwt_verify JWT_SECRET (serve d r)) in
  let thrown := fst (request VITE_API_URL fetch endpoint options this) in
  (Js.ename e = "TokenExpiredError" →
   res s' = Some (rejection 401 token_expired_body))
  ∧ (Js.ename e ≠ "TokenExpiredError" →
     res s' = Some (rejection 401 invalid_token_body))
  ∧ body_code (Some (rejection 401 token_expired_body))
    ≠ body_code (Some (rejection 401 invalid_token_body))
  ∧ (JsRt.prop data "code" = Js.Returned (Js.str "TOKEN_EXPIRED") →
     thrown = Js.Thrown session_expired)
  ∧ (∀ code, JsRt.prop data "code" = Js.Returned code →
             code ≠ Js.str "TOKEN_EXPIRED" →
             thrown = Js.Thrown authentication_failed).
Proof.
  intros Htok Hthrow Hfetch Hstatus Hct Hjson s' thrown. subst s' thrown.
  rewrite (auth_verify_throws _ _ _ tok e) by assumption.
  rewrite (request_json_401 _ _ _ _ _ resp data) by assumption.
  simpl. repeat split.
  - intros ->. reflexivity.
  - intros Hne. apply String.eqb_neq in Hne. by rewrite Hne.
  - vm_compute. discriminate.
  - intros ->. reflexivity.
  - intros code -> Hne.
    destruct (Js.is_str code "TOKEN_EXPIRED") eqn:Hs; [|reflexivity].
    apply is_str_true in Hs. contradiction.
Qed.

Lemma expired_token_distinct_code_witness :
  res (snd (auth sample_verify None
              (serve sample_store (request_with (Some "Bearer old")))))
  = Some (rejection 401 token_expired_body)
  ∧ fst (request None (always expired_json) "/auth/me" no_options signed_in)
    = Js.Thrown session_expired.
Proof.
  pose proof (expired_token_distinct_code sample_verify None sample_store
                (request_with (Some "Bearer old")) "old"
                (Js.Error "TokenExpiredError" "jwt expired")
                None (always expired_json) signed_in "/auth/me" no_options
                expired_json (JsRt.Dobject token_expired_body)
                eq_refl eq_refl eq_refl eq_refl eq_refl eq_refl)
    as (Hexpired & _ & _ & Hclient & _).
  split; [apply Hexpired | apply Hclient]; reflexivity.
Defined.

(** C2 fails as stated on the client side: a 401 whose body carries code
    TOKEN_EXPIRED but which does not declare a JSON content type raises the
    format error, not the re-login error. *)
Lemma expired_code_in_plain_text :
  hstatus expired_plain = 401%Z
  ∧ json expired_plain = Js.Returned (JsRt.Dobject token_expired_body)
  ∧ JsRt.prop (JsRt.Dobject token_expired_body) "code"
    = Js.Returned (Js.str "TOKEN_EXPIRED")
  ∧ fst (request None (always expired_plain) "/auth/me" no_options signed_in)
    = Js.Thrown invalid_format
  ∧ invalid_format ≠ session_expired.
Proof. vm_compute. repeat split; discriminate. Qed.

Lemma config_signed_out (this : ApiService) (options : RequestInit) :
  headers options = None →
  headers (config (signed_out this) options)
  = Some {[ "Content-Type" := "application/json" ]}.
Proof.
  intros Hnone. unfold config. rewrite Hnone. simpl.
  by rewrite !(left_id_L ∅ (∪)).
Qed.

(** C9, as the code has it.  On a 401 that declares a JSON content type and
    whose body parses, the gateway clears the stored token — the instance's
    token field and the 'authToken' entry of localStorage — and then raises
    an error; a later call without headers of its own carries no
    Authorization header. *)
Theorem gateway_clears_token_on_json_401
    (VITE_API_URL : option string)
    (fetch : string → RequestInit → Js.outcome HttpResponse)
    (this : ApiService) (endpoint : string) (options : RequestInit)
    (resp : HttpResponse) (data : JsRt.data) :
  fetch (API_BASE_URL VITE_API_URL ++ endpoint) (config this options)
    = Js.Returned resp →
  hstatus resp = 401%Z →
  Js.opt_includes (contentType resp) "application/json" = true →
  json resp = Js.Returned data →
  let after := snd (request VITE_API_URL fetch endpoint options this) in
  (∃ e, fst (request VITE_API_URL fetch endpoint options this) = Js.Thrown e)
  ∧ token after = None
  ∧ localStorage after !! "authToken" = None
  ∧ (∀ later : RequestInit,
       headers later = None →
       ∀ h, headers (config after later) = Some h → h !! "Authorization" = None).
Proof.
  intros Hfetch Hstatus Hct Hjson after. subst after.
  rewrite (request_json_401 _ _ _ _ _ resp data) by assumption.
  cbn [fst snd]. split; [eauto|]. split; [reflexivity|].
  split; [apply lookup_delete_eq|].
  intros later Hnone h Hh.
  rewrite config_signed_out in Hh by assumption.
  injection Hh as <-. by apply lookup_singleton_ne.
Qed.

Lemma gateway_clears_token_on_json_401_witness :
  token (snd (request None (always expired_json) "/auth/me" no_options signed_in))
  = None
  ∧ localStorage (snd (request None (always expired_json) "/auth/me"
                         no_options signed_in)) !! "authToken" = None.
Proof.
  pose proof (gateway_clears_token_on_json_401 None (always expired_json)
                signed_in "/auth/me" no_options expired_json
                (JsRt.Dobject token_expired_body)
                eq_refl eq_refl eq_refl eq_refl)
    as (_ & Htoken & Hstorage & _).
  split; [exact Htoken | exact Hstorage].
Defined.

(** C9 fails as stated: a 401 that arrives as an HTML page raises the format
    error and leaves the token where it was, in the instance and in
    localStorage, so the next call presents it again. *)
Lemma html_401_keeps_token :
  hstatus unauthorized_html = 401%Z
  ∧ request None (always unauthorized_html) "/auth/me" no_options signed_in
    = (Js.Thrown invalid_format, signed_in)
  ∧ token signed_in = Some "old"
  ∧ localStorage signed_in !! "authToken" = Some "old"
  ∧ (headers (config signed_in no_options) ≫= (.!! "Authorization"))
    = Some "Bearer old".
Proof.
  split; [reflexivity|]. split.
  - by apply (request_not_json _ _ _ _ _ unauthorized_html).
  - vm_compute. auto.
Qed.

(* ===================================================================== *)
(** ** Properties of [isAuthenticated] *)
(* ===================================================================== *)

(** C10. [isAuthenticated] always returns a boolean and never throws; it
    returns false when no token is stored and when any step of decoding the
    token throws; it returns true exactly when the token's second segment
    decodes and parses to a payload whose [exp], as a number and multiplied
    by 1000, is strictly greater than the current time. *)
Theorem isAuthenticated_total
    (atob : string → Js.outcome string)
    (JSON_parse : string → Js.outcome JsRt.data)
    (Date_now : Z) (string_to_number : string → option Z)
    (this : ApiService) :
  ∃ b : bool,
    isAuthenticated atob JSON_parse Date_now string_to_number this = Js.Returned b
    ∧ (present (token this) = None → b = false)
    ∧ (∀ tok e, present (token this) = Some tok →
                decode_and_compare atob JSON_parse Date_now string_to_number tok
                = Js.Thrown e →
                b = false)
    ∧ (b = true ↔
       ∃ tok decoded payload exp n,
         present (token this) = Some tok
         ∧ atob (JsRt.to_string (JsRt.at_index (JsRt.split tok ".") 1))
           = Js.Returned decoded
         ∧ JSON_parse decoded = Js.Returned payload
         ∧ JsRt.prop payload "exp" = Js.Returned exp
         ∧ to_number string_to_number exp = Some n
         ∧ (Date_now < n * 1000)%Z).
Proof.
  unfold isAuthenticated, decode_and_compare.
  destruct (present (token this)) as [tok|] eqn:Htok.
  2: { exists false. repeat split; try done.
       intros (? & ? & ? & ? & ? & [=] & _). }
  unfold mbind, Js.outcome_bind, mret, Js.outcome_ret.
  destruct (atob _) as [decoded|e1] eqn:Hatob.
  2: { exists false. repeat split; try done.
       intros (? & ? & ? & ? & ? & [= <-] & Ha & _). congruence. }
  destruct (JSON_parse decoded) as [payload|e2] eqn:Hparse.
  2: { exists false. repeat split; try done.
       intros (? & ? & ? & ? & ? & [= <-] & Ha & Hp & _). congruence. }
  destruct (JsRt.prop payload "exp") as [exp|e3] eqn:Hexp.
  2: { exists false. repeat split; try done.
       intros (? & ? & ? & ? & ? & [= <-] & Ha & Hp & He & _). congruence. }
  exists (times_gt (to_number string_to_number exp) 1000 Date_now).
  split; [reflexivity|]. split; [discriminate|]. split.
  { intros tok' e [= <-]. rewrite Hatob, Hparse, Hexp. discriminate. }
  unfold times_gt. split.
  - destruct (to_number string_to_number exp) as [n|] eqn:Hn; [|discriminate].
    intros Hlt%Z.ltb_lt. exists tok, decoded, payload, exp, n. auto 10.
  - intros (tok' & d' & p' & x' & n & [= <-] & Ha & Hp & He & Hn & Hlt).
    assert (d' = decoded) as -> by congruence.
    assert (p' = payload) as -> by congruence.
    assert (x' = exp) as -> by congruence.
    rewrite Hn. by apply Z.ltb_lt.
Qed.

(* ===================================================================== *)
(** ** Properties of the admin listings *)
(* ===================================================================== *)

Lemma Qceiling_div (a b : Z) :
  b ≠ 0 → Qceiling (inject_Z a / inject_Z b) = - ((- a) `div` b).
Proof.
  intros Hb. unfold Qceiling. f_equal.
  rewrite Zdiv_Qdiv. apply Qfloor_comp.
  unfold Qdiv. rewrite inject_Z_opp. ring.
Qed.

Lemma Math_ceil_div_nonzero (a b : Z) :
  b ≠ 0%Z → Math_ceil_div a b = Some (Qceiling (inject_Z a / inject_Z b)).
Proof.
  intros Hb. unfold Math_ceil_div.
  by destruct (Z.eqb_spec b 0).
Qed.

(** [Math.ceil(a / b)] for a positive [b] is the least [p] with
    [a ≤ b * p]. *)
Lemma Math_ceil_div_pos (a b : Z) :
  0 < b →
  ∃ p, Math_ceil_div a b = Some p ∧ (b * (p - 1) < a ≤ b * p)%Z.
Proof.
  intros Hb. unfold Math_ceil_div.
  destruct (Z.eqb_spec b 0) as [->|Hne]; [lia|].
  eexists. split; [reflexivity|].
  rewrite Qceiling_div by assumption.
  pose proof (Z.div_mod (- a) b Hne) as Hdm.
  pose proof (Z.mod_pos_bound (- a) b Hb) as Hmod.
  nia.
Qed.

Section CursorFacts.

Context {A : Type} (createdAt : A → Z).

Lemma cursor_skip_ok (l : list A) (limit skip : Z) :
  (0 ≤ skip)%Z → ∃ docs, cursor createdAt l limit skip = Js.Returned docs.
Proof.
  intros Hskip. unfold cursor.
  destruct (Z.ltb_spec skip 0); [lia | eauto].
Qed.

Lemma cursor_elem_of (l docs : list A) (limit skip : Z) :
  cursor createdAt l limit skip = Js.Returned docs →
  ∀ x, x ∈ docs → x ∈ l.
Proof.
  unfold cursor. destruct (skip <? 0)%Z; [discriminate|].
  intros [= <-] x Hx.
  rewrite <- (merge_sort_Permutation (newer_first createdAt) l).
  apply (subseteq_drop (Z.to_nat skip)).
  destruct (limit =? 0)%Z; [assumption|].
  by apply (subseteq_take (Z.abs_nat limit)).
Qed.

Lemma cursor_length (l docs : list A) (limit skip : Z) :
  0 < limit →
  cursor createdAt l limit skip = Js.Returned docs →
  (0 ≤ skip)%Z
  ∧ Z.of_nat (length docs) = Z.max 0 (Z.min limit (Z.of_nat (length l) - skip)).
Proof.
  intros Hlimit. unfold cursor.
  destruct (Z.ltb_spec skip 0); [discriminate|].
  destruct (Z.eqb_spec limit 0); [lia|].
  intros [= <-]. split; [assumption|].
  rewrite length_take, length_drop.
  rewrite (Permutation_length (merge_sort_Permutation _ l)).
  lia.
Qed.

End CursorFacts.

Section ListingFacts.

Variable regex_i : string → option (string → bool).

Lemma get_templates_res (s : Server) :
  res (snd (get_templates regex_i s))
  = Some (answer "Error fetching templates"
            (templates_page regex_i (db s) (query (req s)))).
Proof.
  unfold get_templates, templates_page, Template_find,
    Template_countDocuments. run_handler.
  destruct (fault (db s)) as [e|] eqn:Hf; simpl; [reflexivity|].
  destruct (regex_ok regex_i _) eqn:Hre; simpl; [|reflexivity].
  destruct (cursor _ _ _ _) as [docs|e]; simpl; [|reflexivity].
  rewrite ?Hf; simpl; rewrite ?Hre; reflexivity.
Qed.

Lemma get_users_res (s : Server) :
  res (snd (get_users regex_i s))
  = Some (answer "Error fetching users"
            (users_page regex_i (db s) (query (req s)))).
Proof.
  unfold get_users, users_page, User_find, User_countDocuments.
  run_handler.
  destruct (fault (db s)) as [e|] eqn:Hf; simpl; [reflexivity|].
  destruct (regex_ok regex_i _) eqn:Hre; simpl; [|reflexivity].
  destruct (cursor _ _ _ _) as [docs|e]; simpl; [|reflexivity].
  rewrite ?Hf; simpl; rewrite ?Hre; reflexivity.
Qed.

(** A filter that asks for active templates matches only those. *)
Lemma template_matches_active (q : TemplateFilter) (t : Template.doc) :
  f_isActive q = Some true →
  template_matches regex_i q t = true →
  Template.isActive t = true.
Proof.
  unfold template_matches. intros ->. simpl.
  destruct (Template.isActive t); [reflexivity|]. simpl. discriminate.
Qed.

Lemma active_page (q : TemplateFilter) (d : Store) (docs : list Template.doc)
    (limit skip : Z) :
  f_isActive q = Some true →
  cursor Template.createdAt
    (List.filter (template_matches regex_i q) (templates d)) limit skip
  = Js.Returned docs →
  Forall (λ p, Template.isActive (tdoc p) = true) (List.map (populate d) docs).
Proof.
  intros Hactive Hcursor. apply Forall_forall. intros p Hp.
  apply list_elem_of_fmap in Hp as (t & -> & Ht). simpl.
  apply (cursor_elem_of _ _ _ _ _ Hcursor) in Ht.
  apply list_elem_of_In, filter_In in Ht as [_ Ht].
  by apply (template_matches_active q).
Qed.

Variable Date_now : Z.

Lemma get_dashboard_res (s : Server) :
  ∃ resp, res (snd (get_dashboard regex_i Date_now s)) = Some resp
  ∧ match payload resp with
    | PStats st =>
        status resp = 200%Z
        ∧ ∃ docs,
            cursor Template.createdAt
              (List.filter (template_matches regex_i active_templates)
                 (templates (db s))) 10 0
            = Js.Returned docs
            ∧ recentTemplates st = List.map (populate (db s)) docs
    | PObject _ => status resp = 500%Z
    | _ => False
    end.
Proof.
  unfold get_dashboard, Template_find, Template_countDocuments,
    User_countDocuments. run_handler.
  destruct (fault (db s)) as [e|] eqn:Hf; simpl.
  { eexists. split; [reflexivity|]. reflexivity. }
  repeat (rewrite Hf; simpl).
  eexists. split; [reflexivity|]. simpl. split; [reflexivity|].
  eexists. split; reflexivity.
Qed.

End ListingFacts.

(** C5. The admin template listing and the dashboard's recent templates
    hold active templates only: whatever the store holds and whatever the
    query parameters are, the route answers, and every template in an
    answer has [isActive = true]. *)
Theorem listings_return_active_only
    (regex_i : string → option (string → bool)) (Date_now : Z) (s : Server) :
  (∃ resp, res (snd (get_templates regex_i s)) = Some resp
     ∧ match payload resp with
       | PTemplates ts _ =>
           status resp = 200%Z
           ∧ Forall (λ p, Template.isActive (tdoc p) = true) ts
       | PObject _ => status resp = 500%Z
       | _ => False
       end)
  ∧ (∃ resp, res (snd (get_dashboard regex_i Date_now s)) = Some resp
       ∧ match payload resp with
         | PStats st =>
             status resp = 200%Z
             ∧ Forall (λ p, Template.isActive (tdoc p) = true) (recentTemplates st)
         | PObject _ => status resp = 500%Z
         | _ => False
         end).
Proof.
  split.
  - eexists. split; [apply get_templates_res|].
    unfold templates_page.
    destruct (fault (db s)); [reflexivity|].
    destruct (regex_ok regex_i _); [|reflexivity].
    destruct (cursor _ _ _ _) as [docs|e] eqn:Hcursor; [|reflexivity].
    simpl. split; [reflexivity|].
    eapply active_page; [|exact Hcursor]; reflexivity.
  - destruct (get_dashboard_res regex_i Date_now s) as (resp & Hres & Hresp).
    exists resp. split; [assumption|].
    destruct (payload resp) as [o|? ?|? ?|st|? ?]; try assumption.
    destruct Hresp as (Hstatus & docs & Hcursor & ->).
    split; [assumption|].
    eapply active_page; [|exact Hcursor]; reflexivity.
Qed.

(** What a listing that was sent says about its page. *)
Lemma templates_page_inv (regex_i : string → option (string → bool))
    (s : Server) (st : Z) (ts : list Populated) (pg : Pagination) :
  res (snd (get_templates regex_i s))
  = Some {| status := st; payload := PTemplates ts pg |} →
  let q := query (req s) in
  let matching :=
    List.filter (template_matches regex_i (templates_filter q)) (templates (db s)) in
  ∃ docs,
    cursor Template.createdAt matching (default 20 (limit q) * 1)
      ((number_of (default (plain 1) (page q)) - 1) * default 20 (limit q))
    = Js.Returned docs
    ∧ ts = List.map (populate (db s)) docs
    ∧ pg = {| current := parseInt (default (plain 1) (page q));
              pages := Math_ceil_div (Z.of_nat (length matching))
                         (default 20 (limit q));
              total := Z.of_nat (length matching) |}.
Proof.
  rewrite get_templates_res. unfold templates_page.
  destruct (fault (db s)); [discriminate|].
  destruct (regex_ok regex_i _); [|discriminate].
  destruct (cursor _ _ _ _) as [docs|e]; [|discriminate].
  simpl. intros [= _ <- <-]. eauto.
Qed.

Lemma users_page_inv (regex_i : string → option (string → bool))
    (s : Server) (st : Z) (us : list User.doc) (pg : Pagination) :
  res (snd (get_users regex_i s))
  = Some {| status := st; payload := PUsers us pg |} →
  let q := query (req s) in
  let matching :=
    List.filter (user_matches regex_i (users_filter q)) (users (db s)) in
  cursor User.createdAt matching (default 20 (limit q) * 1)
    ((number_of (default (plain 1) (page q)) - 1) * default 20 (limit q))
  = Js.Returned us
  ∧ pg = {| current := parseInt (default (plain 1) (page q));
            pages := Math_ceil_div (Z.of_nat (length matching))
                       (default 20 (limit q));
            total := Z.of_nat (length matching) |}.
Proof.
  rewrite get_users_res. unfold users_page.
  destruct (fault (db s)); [discriminate|].
  destruct (regex_ok regex_i _); [|discriminate].
  destruct (cursor _ _ _ _) as [docs|e]; [|discriminate].
  simpl. intros [= _ <- <-]. eauto.
Qed.

(** With the store up, an accepted search pattern, a page of at least 1
    and a positive limit, both listings are sent. *)
Lemma listings_are_sent (regex_i : string → option (string → bool))
    (s : Server) :
  let q := query (req s) in
  fault (db s) = None →
  regex_ok regex_i (present (search q)) = true →
  (1 ≤ number_of (default (plain 1) (page q)))%Z →
  (0 < default 20 (limit q))%Z →
  (∃ ts pg, res (snd (get_templates regex_i s))
            = Some {| status := 200; payload := PTemplates ts pg |})
  ∧ (∃ us pg, res (snd (get_users regex_i s))
              = Some {| status := 200; payload := PUsers us pg |}).
Proof.
  intros q Hup Hregex Hpage Hpos.
  rewrite get_templates_res, get_users_res.
  unfold templates_page, users_page. rewrite Hup. simpl. fold q.
  rewrite Hregex.
  assert (Hskip : (0 ≤ (number_of (default (plain 1) (page q)) - 1)
                       * default 20 (limit q))%Z)
    by nia.
  split.
  - edestruct (cursor_skip_ok Template.createdAt) as [docs ->];
      [exact Hskip | simpl; eauto].
  - edestruct (cursor_skip_ok User.createdAt) as [docs ->];
      [exact Hskip | simpl; eauto].
Qed.




(** The page text '1e3' is read as the number 1000 for the skip and as the
    integer 1 for [current]: the route skips 19980 documents and reports
    page 1. *)
Lemma page_text_is_read_twice :
  res (snd (get_templates no_regex
              (serve fifty_templates
                 {| authorization := None; user := None;
                    query := {| page := Some page_1e3; limit := None;
                                search := None; category := None;
                                isPublic := None |};
                    body := ∅ |})))
  = Some {| status := 200;
            payload := PTemplates []
                         {| current := Some 1%Z; pages := Some 3%Z;
                            total := 45 |} |}
  ∧ ((number_of page_1e3 - 1) * 20 = 19980)%Z.
Proof. split; [vm_compute|]; reflexivity. Qed.



Lemma filter_all {A} (f : A → bool) (l : list A) :
  Forall (λ x, f x = true) l → List.filter f l = l.
Proof.
  induction 1 as [|x l Hx _ IH]; simpl; [reflexivity|].
  by rewrite Hx, IH.
Qed.

(** In a store of [n] active templates a request for [n] per page gets all
    [n] back. *)
Lemma crowded_page (n : nat) :
  ∃ ts pg,
    res (snd (get_templates no_regex
                (serve (crowded (S n))
                   (listing_request None (Some (Z.of_nat (S n)))))))
    = Some {| status := 200; payload := PTemplates ts pg |}
    ∧ length ts = S n.
Proof.
  rewrite get_templates_res. unfold templates_page.
  cbn [db serve fault crowded query req listing_request search page limit
       default templates_filter f_or present regex_ok templates
       fmap option_fmap option_map plain number_of parseInt].
  unfold id.
  rewrite filter_all.
  2: { apply Forall_fmap, Forall_forall. intros i _. reflexivity. }
  edestruct (cursor_skip_ok Template.createdAt) as [docs Hdocs];
    [|rewrite Hdocs]; [lia|].
  simpl. eexists _, _. split; [reflexivity|].
  apply cursor_length in Hdocs as [_ Hlen]; [|lia].
  rewrite length_map. rewrite length_fmap, length_seq in Hlen. lia.
Qed.


(* ===================================================================== *)
(** ** Properties of template creation by an admin *)
(* ===================================================================== *)

(** Whatever the body says, the data the route builds is public and owned
    by the caller. *)
Lemma templateData_forced (body : jsobj) (userId : Js.value) :
  Js.get (templateData body userId) "isPublic" = Js.boolean true
  ∧ Js.get (templateData body userId) "createdBy" = userId.
Proof.
  unfold templateData, Js.get. split.
  - rewrite lookup_insert_ne by done. by rewrite lookup_insert_eq.
  - rewrite !lookup_insert_ne by done. by rewrite lookup_insert_eq.
Qed.

Section CreateFacts.

Variable Date_now : Z.
Variable fresh_id : list Template.doc → string.
Variable schema_validate : jsobj → option Js.error.

Local Abbreviation create := (post_templates Date_now fresh_id schema_validate).

Lemma post_templates_created (s : Server) (p : Principal) :
  user (req s) = Some p →
  fault (db s) = None →
  schema_validate (templateData (body (req s)) (userId p)) = None →
  let t := Template_new Date_now fresh_id (templates (db s))
             (templateData (body (req s)) (userId p)) in
  templates (db (snd (create s))) = (templates (db s) ++ [t])%list
  ∧ status <$> res (snd (create s)) = Some 201%Z.
Proof.
  intros Huser Hup Hvalid t.
  unfold post_templates, req_user_userId, Template_create,
    Template_findById_populate. run_handler.
  rewrite Huser. simpl. rewrite Hup, Hvalid. simpl. rewrite ?Hup. simpl.
  split; reflexivity.
Qed.

Lemma post_templates_refused (s : Server) :
  match user (req s) with
  | None => True
  | Some p =>
      is_Some (fault (db s))
      ∨ is_Some (schema_validate (templateData (body (req s)) (userId p)))
  end →
  templates (db (snd (create s))) = templates (db s)
  ∧ status <$> res (snd (create s)) = Some 500%Z.
Proof.
  unfold post_templates, req_user_userId, Template_create,
    Template_findById_populate. run_handler.
  destruct (user (req s)) as [p|]; simpl; [|by intros _].
  destruct (fault (db s)) as [e|] eqn:Hf; simpl; [by intros _|].
  intros [[? [=]] | [e He]]. rewrite He. simpl. split; reflexivity.
Qed.

End CreateFacts.



(* ===================================================================== *)
(** ** Further properties of the Session Guard *)
(* ===================================================================== *)

(** X1. A verified token that names an active account passes: the guard
    sends no response, calls [next], and attaches the token's [userId] and
    [role] together with the account read from the store, without its
    password. *)
Theorem auth_attaches_principal
    (jwt_verify : string → string → Js.outcome jsobj)
    (JWT_SECRET : option string) (d : Store) (r : Request)
    (tok : string) (decoded : jsobj) (account : User.doc) :
  present (extract_token (authorization r)) = Some tok →
  jwt_verify tok (secret JWT_SECRET) = Js.Returned decoded →
  fault d = None →
  User_lookup (Js.get decoded "userId") d = Some account →
  User.isActive account = true →
  let s' := snd (auth jwt_verify JWT_SECRET (serve d r)) in
  res s' = None
  ∧ next_called s' = true
  ∧ ∃ p, user (req s') = Some p
         ∧ userId p = Js.get decoded "userId"
         ∧ role p = Js.get decoded "role"
         ∧ User.password (userDoc p) = None
         ∧ User._id (userDoc p) = User._id account
         ∧ User.role (userDoc p) = User.role account.
Proof.
  intros Htok Hok Hup Hacc Hon s'. subst s'.
  rewrite (auth_verified _ _ _ tok decoded) by assumption.
  cbn [snd db serve]. rewrite Hacc, Hon. simpl.
  repeat split. eexists. repeat split.
Qed.

Lemma auth_attaches_principal_witness :
  next_called (snd (auth sample_verify None
                      (serve sample_store (request_with (Some "Bearer good")))))
  = true.
Proof.
  apply (auth_attaches_principal sample_verify None sample_store
           (request_with (Some "Bearer good")) "good"
           (obj [("userId", Js.str "u1"); ("role", Js.str "admin")]) ann);
    reflexivity.
Defined.

(** X2. Every run of the guard ends normally and does exactly one of two
    things: it sends a response with status 401 or 500 and leaves the
    request without a principal of its own, or it sends nothing, attaches a
    principal and calls [next]. *)
Theorem auth_answers_or_passes
    (jwt_verify : string → string → Js.outcome jsobj)
    (JWT_SECRET : option string) (d : Store) (r : Request) :
  let run := auth jwt_verify JWT_SECRET (serve d r) in
  fst run = Js.Returned tt
  ∧ ((∃ body code, res (snd run) = Some (rejection code body)
                   ∧ (code = 401 ∨ code = 500)%Z
                   ∧ next_called (snd run) = false
                   ∧ req (snd run) = r)
     ∨ (res (snd run) = None
        ∧ next_called (snd run) = true
        ∧ is_Some (user (req (snd run))))).
Proof.
  intros run. subst run.
  destruct (present (extract_token (authorization r))) as [tok|] eqn:Htok.
  2: { rewrite auth_without_token by exact Htok.
       split; [reflexivity|]. left. eexists _, _. simpl. eauto. }
  destruct (jwt_verify tok (secret JWT_SECRET)) as [decoded|e] eqn:Hv.
  2: { rewrite (auth_verify_throws _ _ _ tok e) by assumption.
       split; [reflexivity|]. left. eexists _, _. simpl. eauto. }
  destruct (fault d) as [f|] eqn:Hf.
  { rewrite (auth_store_down _ _ _ tok decoded f) by assumption.
    split; [reflexivity|]. left. eexists _, _. simpl. eauto. }
  rewrite (auth_verified _ _ _ tok decoded) by assumption.
  split; [reflexivity|]. cbn [snd db serve].
  destruct (User_lookup _ d) as [u|].
  - destruct (User.isActive u); simpl.
    + right. eauto.
    + left. eexists _, _. eauto.
  - left. eexists _, _. simpl. eauto.
Qed.

(** X3. The guard never writes to the store and reads it at most once: the
    only operation it issues is the [findById] of the verified token's
    [userId], and it issues none unless a token was presented and
    verified. *)
Theorem auth_reads_store_at_most_once
    (jwt_verify : string → string → Js.outcome jsobj)
    (JWT_SECRET : option string) (d : Store) (r : Request) :
  let s' := snd (auth jwt_verify JWT_SECRET (serve d r)) in
  db s' = d
  ∧ (oplog s' = []
     ∨ ∃ tok decoded,
         present (extract_token (authorization r)) = Some tok
         ∧ jwt_verify tok (secret JWT_SECRET) = Js.Returned decoded
         ∧ oplog s' = [OpUserFindById (Js.get decoded "userId")]).
Proof.
  intros s'. subst s'.
  destruct (present (extract_token (authorization r))) as [tok|] eqn:Htok.
  2: { rewrite auth_without_token by exact Htok. simpl. auto. }
  destruct (jwt_verify tok (secret JWT_SECRET)) as [decoded|e] eqn:Hv.
  2: { rewrite (auth_verify_throws _ _ _ tok e) by assumption. simpl. auto. }
  destruct (fault d) as [f|] eqn:Hf.
  { rewrite (auth_store_down _ _ _ tok decoded f) by assumption.
    simpl. split; [reflexivity|]. right. eauto. }
  rewrite (auth_verified _ _ _ tok decoded) by assumption.
  cbn [snd db serve oplog].
  destruct (User_lookup _ d) as [u|]; [destruct (User.isActive u)|];
    simpl; (split; [reflexivity|]); right; eauto.
Qed.

(** X4. A verified token whose [userId] matches no account is answered 401
    with code USER_NOT_FOUND; [next] is not called. *)
Theorem auth_unknown_account
    (jwt_verify : string → string → Js.outcome jsobj)
    (JWT_SECRET : option string) (d : Store) (r : Request)
    (tok : string) (decoded : jsobj) :
  present (extract_token (authorization r)) = Some tok →
  jwt_verify tok (secret JWT_SECRET) = Js.Returned decoded →
  fault d = None →
  User_lookup (Js.get decoded "userId") d = None →
  let s' := snd (auth jwt_verify JWT_SECRET (serve d r)) in
  res s' = Some (rejection 401 not_found_body)
  ∧ next_called s' = false
  ∧ user (req s') = user r.
Proof.
  intros Htok Hok Hup Hnone s'. subst s'.
  rewrite (auth_verified _ _ _ tok decoded) by assumption.
  cbn [snd db serve]. rewrite Hnone. simpl. auto.
Qed.

Lemma auth_unknown_account_witness :
  res (snd (auth stranger_verify None
              (serve sample_store (request_with (Some "Bearer anything")))))
  = Some (rejection 401 not_found_body).
Proof.
  apply (auth_unknown_account stranger_verify None sample_store
           (request_with (Some "Bearer anything")) "anything"
           (obj [("userId", Js.str "u9"); ("role", Js.str "user")]));
    reflexivity.
Defined.

(** X5. When the account read fails, the guard answers 500 with code
    AUTH_ERROR and a fixed message — nothing of the store's error reaches
    the body — and does not call [next]. *)
Theorem auth_store_failure_is_500
    (jwt_verify : string → string → Js.outcome jsobj)
    (JWT_SECRET : option string) (d : Store) (r : Request)
    (tok : string) (decoded : jsobj) (e : Js.error) :
  present (extract_token (authorization r)) = Some tok →
  jwt_verify tok (secret JWT_SECRET) = Js.Returned decoded →
  fault d = Some e →
  let s' := snd (auth jwt_verify JWT_SECRET (serve d r)) in
  res s' = Some {| status := 500;
                   payload := PObject
                     (obj [("success", Js.boolean false);
                           ("message", Js.str "Authentication error.");
                           ("code", Js.str "AUTH_ERROR")]) |}
  ∧ next_called s' = false
  ∧ user (req s') = user r.
Proof.
  intros Htok Hok Hdown s'. subst s'.
  rewrite (auth_store_down _ _ _ tok decoded e) by assumption.
  simpl. auto.
Qed.

Lemma auth_store_failure_is_500_witness :
  res (snd (auth sample_verify None
              (serve broken_store (request_with (Some "Bearer good")))))
  = Some (rejection 500 auth_error_body).
Proof.
  apply (auth_store_failure_is_500 sample_verify None broken_store
           (request_with (Some "Bearer good")) "good"
           (obj [("userId", Js.str "u1"); ("role", Js.str "admin")])
           (Js.Error "MongoNetworkError" "connection refused"));
    reflexivity.
Defined.

(** X6. The token the gateway attaches is the token the guard verifies: for
    a client holding a non-empty token [t] and a call without headers of its
    own, the request carries [Authorization: Bearer t], and the guard
    extracts exactly [t] from that header. *)
Theorem gateway_token_reaches_guard
    (this : ApiService) (options : RequestInit) (t : string) :
  present (token this) = Some t →
  headers options = None →
  ∃ h, headers (config this options) = Some h
       ∧ h !! "Authorization" = Some ("Bearer " ++ t)
       ∧ h !! "Content-Type" = Some "application/json"
       ∧ extract_token (h !! "Authorization") = Some t.
Proof.
  intros Htok Hnone. unfold config. rewrite Htok, Hnone. simpl.
  eexists. split; [reflexivity|].
  rewrite (left_id_L ∅ (∪)).
  assert (Hauth : ({["Authorization" := "Bearer " ++ t]}
                   ∪ {["Content-Type" := "application/json"]}
                   : gmap string string) !! "Authorization"
                  = Some ("Bearer " ++ t)).
  { apply lookup_union_Some_l, lookup_singleton_eq. }
  split; [exact Hauth|]. split.
  - rewrite lookup_union_r by (by apply lookup_singleton_ne).
    apply lookup_singleton_eq.
  - rewrite Hauth. apply extract_token_bearer.
Qed.

Lemma gateway_token_reaches_guard_witness :
  ∃ h, headers (config signed_in no_options) = Some h
       ∧ h !! "Authorization" = Some ("Bearer " ++ "old")
       ∧ h !! "Content-Type" = Some "application/json"
       ∧ extract_token (h !! "Authorization") = Some "old".
Proof.
  apply (gateway_token_reaches_guard signed_in no_options "old");
    reflexivity.
Defined.

(* ===================================================================== *)
(** ** Further properties of the client gateway *)
(* ===================================================================== *)

(** X7. [request] returns data exactly when the network answered with a 2xx
    status, a JSON content type and a body that parses to that data and
    whose [success] field is not [false]; the stored token is then left as
    it was. *)
Theorem request_returns_only_on_success
    (VITE_API_URL : option string)
    (fetch : string → RequestInit → Js.outcome HttpResponse)
    (this : ApiService) (endpoint : string) (options : RequestInit)
    (data : JsRt.data) :
  (fst (request VITE_API_URL fetch endpoint options this) = Js.Returned data
   ↔ ∃ resp v,
       fetch (API_BASE_URL VITE_API_URL ++ endpoint) (config this options)
       = Js.Returned resp
       ∧ ok resp = true
       ∧ Js.opt_includes (contentType resp) "application/json" = true
       ∧ json resp = Js.Returned data
       ∧ JsRt.prop data "success" = Js.Returned v
       ∧ Js.is_false v = false)
  ∧ (fst (request VITE_API_URL fetch endpoint options this) = Js.Returned data →
     snd (request VITE_API_URL fetch endpoint options this) = this).
Proof.
  unfold request. run_handler.
  destruct (fetch _ _) as [resp|e0] eqn:Hfetch.
  2: { split; [split|]; [discriminate | | discriminate].
       intros (? & ? & [=] & _). }
  destruct (Js.opt_includes (contentType resp) "application/json") eqn:Hct;
    cbn [negb].
  2: { split; [split|]; [discriminate | | discriminate].
       intros (? & ? & [= <-] & _ & Hc & _). congruence. }
  destruct (json resp) as [body|e1] eqn:Hjson.
  2: { split; [split|]; [discriminate | | discriminate].
       intros (? & ? & [= <-] & _ & _ & Hj & _). congruence. }
  destruct (ok resp) eqn:Hok; cbn [negb].
  2: { assert (Hno : ∀ o : Js.outcome JsRt.data * ApiService,
                 (∃ e, fst o = Js.Thrown e) → fst o ≠ Js.Returned data)
         by (intros o [e He]; congruence).
       split; [split|].
       - intros Hret. exfalso. revert Hret. apply Hno.
         destruct (hstatus resp =? 401)%Z; simpl.
         + destruct (JsRt.prop body "code") as [c|]; simpl; [|eauto].
           destruct (Js.is_str c "TOKEN_EXPIRED"); simpl; eauto.
         + destruct (JsRt.prop body "message"); simpl; eauto.
       - intros (? & ? & [= <-] & Ho & _). congruence.
       - intros Hret. exfalso. revert Hret. apply Hno.
         destruct (hstatus resp =? 401)%Z; simpl.
         + destruct (JsRt.prop body "code") as [c|]; simpl; [|eauto].
           destruct (Js.is_str c "TOKEN_EXPIRED"); simpl; eauto.
         + destruct (JsRt.prop body "message"); simpl; eauto. }
  destruct (JsRt.prop body "success") as [v|e2] eqn:Hsuccess; simpl.
  2: { split; [split|]; [discriminate | | discriminate].
       intros (? & ? & [= <-] & _ & _ & Hj & Hs & _).
       assert (body = data) as -> by congruence. congruence. }
  destruct (Js.is_false v) eqn:Hv; simpl.
  - assert (Hthrown : ∀ o : Js.outcome JsRt.data * ApiService,
              (∃ e, fst o = Js.Thrown e) → fst o ≠ Js.Returned data)
      by (intros o [e He]; congruence).
    split; [split|].
    + intros Hret. exfalso. revert Hret. apply Hthrown.
      destruct (JsRt.prop body "message"); simpl; eauto.
    + intros (? & v' & [= <-] & _ & _ & Hj & Hs & Hf).
      assert (body = data) as -> by congruence. congruence.
    + intros Hret. exfalso. revert Hret. apply Hthrown.
      destruct (JsRt.prop body "message"); simpl; eauto.
  - split; [split|]; [| |reflexivity].
    + intros [= <-]. exists resp, v. auto 10.
    + intros (? & ? & [= <-] & _ & _ & Hj & _). congruence.
Qed.

(** X8. A JSON answer with a three-digit error status other than 401
    leaves the stored token alone and raises an error: for a body that is
    an object or a primitive other than [null], the body's [message] when
    it is truthy (and, if a number, a safe integer) and
    'HTTP error! status: N' otherwise; for the body [null], the
    [TypeError] of reading a property of [null]. *)
Theorem request_error_status_keeps_token
    (VITE_API_URL : option string)
    (fetch : string → RequestInit → Js.outcome HttpResponse)
    (this : ApiService) (endpoint : string) (options : RequestInit)
    (resp : HttpResponse) (data : JsRt.data) :
  fetch (API_BASE_URL VITE_API_URL ++ endpoint) (config this options)
    = Js.Returned resp →
  ok resp = false →
  (0 ≤ hstatus resp ≤ 999)%Z →
  hstatus resp ≠ 401%Z →
  Js.opt_includes (contentType resp) "application/json" = true →
  json resp = Js.Returned data →
  match JsRt.prop data "message" with
  | Js.Returned message =>
      printable message = true →
      request VITE_API_URL fetch endpoint options this
      = (Js.Thrown
           (Js.Error "Error"
              (if Js.truthy message then JsRt.to_string message
               else "HTTP error! status: " ++ pretty (hstatus resp))),
         this)
  | Js.Thrown _ =>
      ∃ text,
        request VITE_API_URL fetch endpoint options this
        = (Js.Thrown (Js.Error "TypeError" text), this)
  end.
Proof.
  intros Hfetch Hok Hrange Hstatus Hct Hjson.
  unfold request. run_handler.
  rewrite Hfetch, Hct, Hjson, Hok. cbn [negb].
  apply Z.eqb_neq in Hstatus. rewrite Hstatus.
  destruct (JsRt.prop data "message") as [message|e] eqn:Hmessage.
  - intros _. simpl. unfold Js.or. destruct (Js.truthy message); reflexivity.
  - simpl. destruct data as [o|v]; [discriminate|].
    destruct v; simpl in Hmessage; try discriminate;
      injection Hmessage as <-; eauto.
Qed.

Lemma request_error_status_keeps_token_witness :
  request None (always server_error) "/templates" no_options signed_in
  = (Js.Thrown (Js.Error "Error" "HTTP error! status: 500"), signed_in).
Proof.
  apply (request_error_status_keeps_token None (always server_error)
           signed_in "/templates" no_options server_error
           (JsRt.Dobject (obj [("error", Js.str "boom")])));
    try reflexivity.
  - simpl. lia.
  - simpl. lia.
Defined.

(** X9. A 2xx answer whose body says [success: false] is raised as an
    error carrying the body's [message] when it is truthy (and, if a
    number, a safe integer), or 'Operation failed' otherwise; the stored
    token is left alone. *)
Theorem request_success_false_throws
    (VITE_API_URL : option string)
    (fetch : string → RequestInit → Js.outcome HttpResponse)
    (this : ApiService) (endpoint : string) (options : RequestInit)
    (resp : HttpResponse) (data : JsRt.data) (message : Js.value) :
  fetch (API_BASE_URL VITE_API_URL ++ endpoint) (config this options)
    = Js.Returned resp →
  ok resp = true →
  Js.opt_includes (contentType resp) "application/json" = true →
  json resp = Js.Returned data →
  JsRt.prop data "success" = Js.Returned (Js.boolean false) →
  JsRt.prop data "message" = Js.Returned message →
  printable message = true →
  request VITE_API_URL fetch endpoint options this
  = (Js.Thrown
       (Js.Error "Error"
          (if Js.truthy message then JsRt.to_string message
           else "Operation failed")),
     this).
Proof.
  intros Hfetch Hok Hct Hjson Hsuccess Hmessage _.
  unfold request. run_handler.
  rewrite Hfetch, Hct, Hjson, Hok. cbn [negb].
  rewrite Hsuccess. simpl. rewrite Hmessage. simpl.
  unfold Js.or. destruct (Js.truthy message); reflexivity.
Qed.

Lemma request_success_false_throws_witness :
  request None (always refused_ok) "/templates" no_options signed_in
  = (Js.Thrown (Js.Error "Error" "Template name taken"), signed_in).
Proof.
  apply (request_success_false_throws None (always refused_ok)
           signed_in "/templates" no_options refused_ok
           (JsRt.Dobject (obj [("success", Js.boolean false);
                               ("message", Js.str "Template name taken")]))
           (Js.str "Template name taken"));
    reflexivity.
Defined.

(** X10. [request] never stores a token and clears one only on a 401 that
    arrived and parsed as JSON: in every other case — network failure,
    wrong content type, unparsable body, any other status — the client's
    state after the call is the state before it. *)
Theorem request_only_clears_on_json_401
    (VITE_API_URL : option string)
    (fetch : string → RequestInit → Js.outcome HttpResponse)
    (this : ApiService) (endpoint : string) (options : RequestInit) :
  let after := snd (request VITE_API_URL fetch endpoint options this) in
  after = this
  ∨ (after = signed_out this
     ∧ ∃ resp data,
         fetch (API_BASE_URL VITE_API_URL ++ endpoint) (config this options)
         = Js.Returned resp
         ∧ hstatus resp = 401%Z
         ∧ Js.opt_includes (contentType resp) "application/json" = true
         ∧ json resp = Js.Returned data).
Proof.
  intros after. subst after.
  destruct (fetch (API_BASE_URL VITE_API_URL ++ endpoint) (config this options))
    as [resp|e0] eqn:Hfetch.
  2: { left. unfold request. run_handler. by rewrite Hfetch. }
  destruct (Js.opt_includes (contentType resp) "application/json") eqn:Hct.
  2: { left. by rewrite (request_not_json _ _ _ _ _ resp). }
  destruct (json resp) as [data|e1] eqn:Hjson.
  2: { left. unfold request. run_handler. by rewrite Hfetch, Hct, Hjson. }
  destruct (Z.eq_dec (hstatus resp) 401) as [H401|Hother].
  { right. rewrite (request_json_401 _ _ _ _ _ resp data) by assumption.
    split; [reflexivity|]. eauto 10. }
  left. unfold request. run_handler.
  rewrite Hfetch, Hct, Hjson. cbn [negb].
  apply Z.eqb_neq in Hother. rewrite Hother.
  destruct (ok resp); cbn [negb].
  - destruct (JsRt.prop data "success") as [v|]; simpl; [|reflexivity].
    destruct (Js.is_false v); simpl; [|reflexivity].
    destruct (JsRt.prop data "message"); reflexivity.
  - destruct (JsRt.prop data "message"); reflexivity.
Qed.

(** X11. Headers passed by the caller replace the merged ones as a whole:
    such a call carries the caller's headers only, so whatever token is
    stored, it is not attached unless the caller wrote the Authorization
    header itself. *)
Theorem caller_headers_replace_authorization
    (this : ApiService) (options : RequestInit) (h : gmap string string) :
  headers options = Some h →
  h !! "Authorization" = None →
  headers (config this options) = Some h
  ∧ (headers (config this options) ≫= (.!! "Authorization")) = None.
Proof.
  intros Hown Hno. unfold config. rewrite Hown. simpl. auto.
Qed.

Lemma caller_headers_replace_authorization_witness :
  token signed_in = Some "old"
  ∧ (headers (config signed_in own_headers) ≫= (.!! "Authorization")) = None.
Proof.
  split; [reflexivity|].
  apply (caller_headers_replace_authorization signed_in own_headers
           {[ "X-Requested-With" := "fetch" ]});
    reflexivity.
Defined.

(* ===================================================================== *)
(** ** Properties of soft delete, deactivation and role change *)
(* ===================================================================== *)

Section UpdateFirst.

Context {A : Type} (pick : A → bool) (upd : A → A).

(** [update_first] changes the document [find] would return, in place. *)
Lemma update_first_find (l : list A) :
  match List.find pick l with
  | None => update_first pick upd l = None
  | Some x =>
      ∃ l1 l2, l = (l1 ++ x :: l2)%list
               ∧ Forall (λ z, pick z = false) l1
               ∧ pick x = true
               ∧ update_first pick upd l = Some (upd x, (l1 ++ upd x :: l2)%list)
  end.
Proof.
  induction l as [|a l IH]; simpl; [reflexivity|].
  destruct (pick a) eqn:Ha.
  - exists [], l. simpl. auto.
  - destruct (List.find pick l) as [x|].
    + destruct IH as (l1 & l2 & -> & Hl1 & Hx & ->).
      exists (a :: l1), l2. simpl. auto.
    + by rewrite IH.
Qed.

Lemma find_app_skip (l1 l2 : list A) :
  Forall (λ z, pick z = false) l1 →
  List.find pick (l1 ++ l2) = List.find pick l2.
Proof.
  induction 1 as [|a l1 Ha _ IH]; simpl; [reflexivity|]. by rewrite Ha.
Qed.

Lemma find_none_forall (l : list A) :
  List.find pick l = None ↔ Forall (λ z, pick z = false) l.
Proof.
  induction l as [|a l IH]; simpl.
  - split; [constructor | reflexivity].
  - destruct (pick a) eqn:Ha.
    + split; [discriminate|]. inversion 1. congruence.
    + rewrite IH. split; [by constructor | by inversion 1].
Qed.

End UpdateFirst.

Lemma Template_deactivate_idemp (t : Template.doc) :
  Template_deactivate (Template_deactivate t) = Template_deactivate t.
Proof. reflexivity. Qed.

(** What [DELETE /templates/:id] does to a store that answers. *)
Lemma delete_template_run (id : string) (s : Server) :
  fault (db s) = None →
  let by_id := λ t, String.eqb (Template._id t) id in
  match List.find by_id (templates (db s)) with
  | None =>
      db (snd (delete_template id s)) = db s
      ∧ res (snd (delete_template id s))
        = Some (rejection 404 (message_body "Template not found"))
  | Some t =>
      ∃ l1 l2,
        templates (db s) = (l1 ++ t :: l2)%list
        ∧ Forall (λ z, by_id z = false) l1
        ∧ db (snd (delete_template id s))
          = {| users := users (db s);
               templates := (l1 ++ Template_deactivate t :: l2)%list;
               fault := None |}
        ∧ res (snd (delete_template id s))
          = Some {| status := 200;
                    payload := PObject
                      (message_body "Template deleted successfully") |}
  end.
Proof.
  intros Hup by_id.
  pose proof (update_first_find by_id Template_deactivate (templates (db s)))
    as Hfind.
  unfold delete_template, Template_findByIdAndUpdate. run_handler.
  rewrite Hup. fold by_id.
  destruct (List.find by_id (templates (db s))) as [t|].
  - destruct Hfind as (l1 & l2 & Hl & Hl1 & Ht & ->). simpl.
    exists l1, l2. auto.
  - rewrite Hfind. simpl. destruct (db s). auto.
Qed.

(** X12. [DELETE /templates/:id] never removes a document: after it, the
    accounts are as before and every stored template is either untouched
    or is a template with the given id, changed only in that [isActive] is
    now false. *)
Theorem delete_template_is_soft (id : string) (s : Server) :
  let s' := snd (delete_template id s) in
  users (db s') = users (db s)
  ∧ Forall2 (λ t t', t' = t ∨ (Template._id t = id ∧ t' = Template_deactivate t))
      (templates (db s)) (templates (db s')).
Proof.
  intros s'. subst s'.
  assert (Hsame : ∀ l : list Template.doc,
            Forall2 (λ t t', t' = t
                             ∨ (Template._id t = id ∧ t' = Template_deactivate t))
              l l).
  { intros l. apply Forall2_same_length_lookup. split; [reflexivity|].
    intros i x y Hx Hy. left. congruence. }
  destruct (fault (db s)) as [e|] eqn:Hf.
  { unfold delete_template, Template_findByIdAndUpdate. run_handler.
    rewrite Hf. simpl. auto. }
  pose proof (delete_template_run id s Hf) as Hrun. simpl in Hrun.
  destruct (List.find _ (templates (db s))) as [t|] eqn:Hfind.
  - destruct Hrun as (l1 & l2 & Hl & _ & -> & _). simpl.
    split; [reflexivity|]. rewrite Hl.
    apply Forall2_app; [apply Hsame|].
    constructor; [|apply Hsame].
    right. split; [|reflexivity].
    apply find_some in Hfind as [_ Hid]. by apply String.eqb_eq in Hid.
  - destruct Hrun as [-> _]. auto.
Qed.

(** X13. Deleting a template id the store does not hold is answered 404
    'Template not found' and changes nothing. *)
Theorem delete_unknown_template_is_404 (id : string) (s : Server) :
  fault (db s) = None →
  Forall (λ t, Template._id t ≠ id) (templates (db s)) →
  db (snd (delete_template id s)) = db s
  ∧ res (snd (delete_template id s))
    = Some {| status := 404;
              payload := PObject (obj [("message", Js.str "Template not found")]) |}.
Proof.
  intros Hup Hnone.
  pose proof (delete_template_run id s Hup) as Hrun. simpl in Hrun.
  replace (List.find _ (templates (db s))) with (@None Template.doc) in Hrun.
  { exact Hrun. }
  symmetry. apply find_none_forall.
  eapply Forall_impl; [exact Hnone|]. intros t Ht.
  by apply String.eqb_neq.
Qed.

Lemma delete_unknown_template_is_404_witness :
  db (snd (delete_template "7" (serve three_templates (request_with None))))
  = three_templates.
Proof.
  apply (delete_unknown_template_is_404 "7"
           (serve three_templates (request_with None)));
    [reflexivity|].
  repeat constructor; discriminate.
Defined.

(** X14. Soft delete does not look at the active flag: deleting a template
    that is stored, active or not, is answered 200 'Template deleted
    successfully', and deleting it once more is answered the same and
    leaves the store as the first delete left it. *)
Theorem delete_template_repeats (id : string) (s : Server) (t : Template.doc) :
  fault (db s) = None →
  List.find (λ t, String.eqb (Template._id t) id) (templates (db s)) = Some t →
  let s1 := snd (delete_template id s) in
  let s2 := snd (delete_template id s1) in
  let deleted := {| status := 200;
                    payload := PObject
                      (obj [("message", Js.str "Template deleted successfully")]) |} in
  res s1 = Some deleted ∧ res s2 = Some deleted ∧ db s2 = db s1.
Proof.
  intros Hup Hfind s1 s2 deleted.
  pose proof (delete_template_run id s Hup) as Hrun. simpl in Hrun.
  rewrite Hfind in Hrun. destruct Hrun as (l1 & l2 & Hl & Hl1 & Hdb & Hres).
  fold s1 in Hdb, Hres.
  assert (Hup1 : fault (db s1) = None) by (by rewrite Hdb).
  pose proof (delete_template_run id s1 Hup1) as Hrun1. simpl in Hrun1.
  fold s2 in Hrun1.
  assert (Hfind1 : List.find (λ t, String.eqb (Template._id t) id)
                     (templates (db s1)) = Some (Template_deactivate t)).
  { rewrite Hdb. simpl. rewrite find_app_skip by assumption. simpl.
    apply find_some in Hfind as [_ Hid]. by rewrite Hid. }
  rewrite Hfind1 in Hrun1.
  destruct Hrun1 as (k1 & k2 & Hk & Hk1 & Hdb2 & Hres2).
  split; [exact Hres|]. split; [exact Hres2|].
  rewrite Hdb2. rewrite Hdb in Hk |- *. cbn [users templates] in Hk |- *.
  f_equal. rewrite Hk. reflexivity.
Qed.

Lemma delete_template_repeats_witness :
  db (snd (delete_template "1"
             (snd (delete_template "1"
                     (serve three_templates (request_with None))))))
  = db (snd (delete_template "1" (serve three_templates (request_with None)))).
Proof.
  apply (delete_template_repeats "1"
           (serve three_templates (request_with None)) (numbered true 1));
    reflexivity.
Defined.

Lemma delete_template_down (id : string) (s : Server) (e : Js.error) :
  fault (db s) = Some e → db (snd (delete_template id s)) = db s.
Proof.
  intros Hf. unfold delete_template, Template_findByIdAndUpdate. run_handler.
  by rewrite Hf.
Qed.

(** X15. Once a template has been soft-deleted, no listing of the admin
    template route shows a template with its id, whatever the query —
    provided ids are unique in the collection. *)
Theorem deleted_template_leaves_listings
    (regex_i : string → option (string → bool))
    (id : string) (s : Server) (r : Request)
    (st : Z) (ts : list Populated) (pg : Pagination) :
  NoDup (Template._id <$> templates (db s)) →
  res (snd (get_templates regex_i (serve (db (snd (delete_template id s))) r)))
  = Some {| status := st; payload := PTemplates ts pg |} →
  Forall (λ p, Template._id (tdoc p) ≠ id) ts.
Proof.
  intros Hnodup Hres.
  rewrite get_templates_res in Hres. unfold templates_page in Hres.
  cbn [db serve req] in Hres.
  destruct (fault (db (snd (delete_template id s)))) eqn:Hf';
    [discriminate|].
  destruct (regex_ok regex_i _); [|discriminate].
  destruct (cursor _ _ _ _) as [docs|] eqn:Hcursor; [|discriminate].
  simpl in Hres. injection Hres as _ <- _.
  apply Forall_forall. intros p Hp.
  apply list_elem_of_fmap in Hp as (t & -> & Ht). simpl.
  apply (cursor_elem_of _ _ _ _ _ Hcursor) in Ht.
  apply list_elem_of_In, filter_In in Ht as [Hin Hmatch].
  apply template_matches_active in Hmatch; [|reflexivity].
  destruct (fault (db s)) as [e|] eqn:Hf.
  { rewrite (delete_template_down id s e Hf) in Hf'. congruence. }
  pose proof (delete_template_run id s Hf) as Hrun. simpl in Hrun.
  destruct (List.find _ (templates (db s))) as [t0|] eqn:Hfind.
  - destruct Hrun as (l1 & l2 & Hl & Hl1 & Hdb & _).
    rewrite Hdb in Hin. cbn [templates] in Hin.
    apply in_app_or in Hin as [Hin | [<- | Hin]].
    + rewrite Forall_forall in Hl1. apply list_elem_of_In, Hl1 in Hin.
      by apply String.eqb_neq.
    + discriminate.
    + apply find_some in Hfind as [_ Hid]. apply String.eqb_eq in Hid.
      rewrite Hl, fmap_app, fmap_cons in Hnodup.
      apply NoDup_app in Hnodup as (_ & _ & Hnodup).
      apply NoDup_cons in Hnodup as [Hnotin _].
      intros Heq. apply Hnotin. rewrite Hid, <- Heq.
      apply list_elem_of_fmap. exists t. split; [reflexivity|].
      by apply list_elem_of_In.
  - destruct Hrun as [Hdb _]. rewrite Hdb in Hin.
    apply find_none_forall in Hfind. rewrite Forall_forall in Hfind.
    apply list_elem_of_In, Hfind in Hin. by apply String.eqb_neq.
Qed.

Lemma deleted_template_leaves_listings_witness :
  ∃ ts pg,
    res (snd (get_templates no_regex
                (serve (db (snd (delete_template "1"
                                   (serve three_templates (request_with None)))))
                   (listing_request None None))))
    = Some {| status := 200; payload := PTemplates ts pg |}
    ∧ length ts = 2%nat
    ∧ Forall (λ p, Template._id (tdoc p) ≠ "1") ts.
Proof.
  eexists _, _. split; [vm_compute; reflexivity|].
  split; [reflexivity|].
  eapply (deleted_template_leaves_listings no_regex "1"
            (serve three_templates (request_with None))
            (listing_request None None)).
  - apply (bool_decide_unpack _). vm_compute. exact I.
  - vm_compute. reflexivity.
Defined.

(** What [PUT /users/:id/deactivate] does to a store that answers and holds
    the account. *)
Lemma deactivate_user_run (id : string) (s : Server) (u : User.doc) :
  fault (db s) = None →
  User_lookup (Js.str id) (db s) = Some u →
  User_lookup (Js.str id) (db (snd (deactivate_user id s)))
  = Some (User_deactivate u)
  ∧ fault (db (snd (deactivate_user id s))) = None
  ∧ templates (db (snd (deactivate_user id s))) = templates (db s)
  ∧ res (snd (deactivate_user id s))
    = Some {| status := 200;
              payload := PObject (message_body "User deactivated successfully") |}.
Proof.
  intros Hup Hfind. unfold User_lookup in Hfind.
  pose proof (update_first_find (λ u, String.eqb (User._id u) id)
                User_deactivate (users (db s))) as Hupd.
  rewrite Hfind in Hupd. destruct Hupd as (l1 & l2 & Hl & Hl1 & Hu & Hupd).
  unfold deactivate_user, User_findByIdAndUpdate. run_handler.
  rewrite Hup, Hupd. simpl. rewrite ?Hup.
  repeat split. unfold User_lookup. cbn [users].
  rewrite find_app_skip by assumption. simpl.
  by rewrite Hu.
Qed.

(** X16. Deactivating an account locks its tokens out: after
    [PUT /users/:id/deactivate] has answered 200, the guard rejects every
    request whose token verifies and names that account with 401
    ACCOUNT_DEACTIVATED, and does not call [next]. *)
Theorem deactivated_account_is_locked_out
    (jwt_verify : string → string → Js.outcome jsobj)
    (JWT_SECRET : option string)
    (id : string) (s : Server) (u : User.doc)
    (r : Request) (tok : string) (decoded : jsobj) :
  fault (db s) = None →
  User_lookup (Js.str id) (db s) = Some u →
  present (extract_token (authorization r)) = Some tok →
  jwt_verify tok (secret JWT_SECRET) = Js.Returned decoded →
  Js.get decoded "userId" = Js.str id →
  let s1 := snd (deactivate_user id s) in
  let s2 := snd (auth jwt_verify JWT_SECRET (serve (db s1) r)) in
  status <$> res s1 = Some 200%Z
  ∧ res s2 = Some (rejection 401 deactivated_body)
  ∧ next_called s2 = false
  ∧ user (req s2) = user r.
Proof.
  intros Hup Hfind Htok Hok Hid s1 s2.
  destruct (deactivate_user_run id s u Hup Hfind)
    as (Hfind1 & Hup1 & _ & Hres1).
  fold s1 in Hfind1, Hup1, Hres1.
  split; [by rewrite Hres1|].
  subst s2. rewrite (auth_verified _ _ _ tok decoded) by assumption.
  cbn [snd db serve]. rewrite Hid, Hfind1. simpl. auto.
Qed.

Lemma deactivated_account_is_locked_out_witness :
  res (snd (auth sample_verify None
              (serve (db (snd (deactivate_user "u1"
                                 (serve sample_store (request_with None)))))
                 (request_with (Some "Bearer good")))))
  = Some (rejection 401 deactivated_body).
Proof.
  apply (deactivated_account_is_locked_out sample_verify None "u1"
           (serve sample_store (request_with None)) ann
           (request_with (Some "Bearer good")) "good"
           (obj [("userId", Js.str "u1"); ("role", Js.str "admin")]));
    reflexivity.
Defined.

(** X17. [PUT /users/:id/role] accepts the roles 'user' and 'admin' only:
    any other value of the body's [role] — a missing one included — is
    answered 400 'Invalid role' before the store is touched. *)
Theorem role_update_rejects_other_roles
    (role_validate : string → option Js.error) (id : string) (s : Server) :
  Js.get (body (req s)) "role" ≠ Js.str "user" →
  Js.get (body (req s)) "role" ≠ Js.str "admin" →
  put_user_role role_validate id s
  = (Js.Returned tt,
     {| db := db s; oplog := oplog s; req := req s;
        res := Some {| status := 400;
                       payload := PObject (obj [("message", Js.str "Invalid role")]) |};
        next_called := next_called s |}).
Proof.
  intros Huser Hadmin. unfold put_user_role. run_handler.
  destruct (Js.is_str _ "user") eqn:H1.
  { apply is_str_true in H1. contradiction. }
  destruct (Js.is_str _ "admin") eqn:H2.
  { apply is_str_true in H2. contradiction. }
  reflexivity.
Qed.

Lemma role_update_rejects_other_roles_witness :
  db (snd (put_user_role any_role "u2"
             (serve sample_store (role_request (Js.str "root")))))
  = sample_store
  ∧ status <$> res (snd (put_user_role any_role "u2"
                           (serve sample_store (role_request (Js.str "root")))))
    = Some 400%Z.
Proof.
  rewrite (role_update_rejects_other_roles any_role "u2"
             (serve sample_store (role_request (Js.str "root"))));
    [split; reflexivity | discriminate | discriminate].
Defined.

(** X18. A role change reaches the account, not the tokens already issued:
    after [PUT /users/:id/role] has set the role of an active account, the
    guard still passes a token of that account and attaches the role the
    token carries, while the account it attaches shows the new role. *)
Theorem role_change_keeps_token_role
    (role_validate : string → option Js.error)
    (jwt_verify : string → string → Js.outcome jsobj)
    (JWT_SECRET : option string)
    (id new_role : string) (s : Server) (u : User.doc)
    (r : Request) (tok : string) (decoded : jsobj) :
  Js.get (body (req s)) "role" = Js.str new_role →
  new_role = "user" ∨ new_role = "admin" →
  role_validate new_role = None →
  fault (db s) = None →
  User_lookup (Js.str id) (db s) = Some u →
  User.isActive u = true →
  present (extract_token (authorization r)) = Some tok →
  jwt_verify tok (secret JWT_SECRET) = Js.Returned decoded →
  Js.get decoded "userId" = Js.str id →
  let s1 := snd (put_user_role role_validate id s) in
  let s2 := snd (auth jwt_verify JWT_SECRET (serve (db s1) r)) in
  status <$> res s1 = Some 200%Z
  ∧ next_called s2 = true
  ∧ ∃ p, user (req s2) = Some p
         ∧ role p = Js.get decoded "role"
         ∧ User.role (userDoc p) = new_role.
Proof.
  intros Hbody Hrole Hvalid Hup Hfind Hon Htok Hok Hid s1 s2.
  unfold User_lookup in Hfind.
  pose proof (update_first_find (λ u, String.eqb (User._id u) id)
                (User_set_role new_role) (users (db s))) as Hupd.
  rewrite Hfind in Hupd. destruct Hupd as (l1 & l2 & Hl & Hl1 & Hu & Hupd).
  assert (Hrun : db s1 = {| users := (l1 ++ User_set_role new_role u :: l2)%list;
                            templates := templates (db s); fault := None |}
                 ∧ status <$> res s1 = Some 200%Z).
  { subst s1. unfold put_user_role, User_update_role, User_findByIdAndUpdate.
    run_handler. rewrite Hbody.
    replace (Js.is_str (Js.str new_role) "user"
             || Js.is_str (Js.str new_role) "admin") with true
      by (by destruct Hrole as [-> | ->]).
    cbn [negb JsRt.to_string]. rewrite Hvalid, Hup, Hupd. simpl.
    by rewrite ?Hup. }
  destruct Hrun as [Hdb Hres]. split; [exact Hres|].
  subst s2. rewrite (auth_verified _ _ _ tok decoded);
    [|assumption..|by rewrite Hdb].
  cbn [snd db serve]. rewrite Hid, Hdb. unfold User_lookup. cbn [users].
  rewrite find_app_skip by assumption. simpl.
  rewrite Hu. simpl. rewrite Hon. simpl. split; [reflexivity|].
  eexists. repeat split.
Qed.

Lemma role_change_keeps_token_role_witness :
  ∃ p, user (req (snd (auth sample_verify None
                         (serve (db (snd (put_user_role any_role "u1"
                                            (serve sample_store
                                               (role_request (Js.str "user"))))))
                            (request_with (Some "Bearer good"))))))
       = Some p
       ∧ role p = Js.str "admin"
       ∧ User.role (userDoc p) = "user".
Proof.
  destruct (role_change_keeps_token_role any_role sample_verify None
              "u1" "user" (serve sample_store (role_request (Js.str "user")))
              ann (request_with (Some "Bearer good")) "good"
              (obj [("userId", Js.str "u1"); ("role", Js.str "admin")])
              eq_refl (or_introl eq_refl) eq_refl eq_refl eq_refl eq_refl
              eq_refl eq_refl eq_refl)
    as (_ & _ & p & Hp & Hrole & Hdoc).
  exists p. split; [exact Hp|]. split; [exact Hrole | exact Hdoc].
Defined.

(* ===================================================================== *)
(** ** Further properties of the admin listings *)
(* ===================================================================== *)

Lemma StronglySorted_sublist {A} (R : relation A) (k l : list A) :
  k `sublist_of` l → StronglySorted R l → StronglySorted R k.
Proof.
  induction 1 as [|x k l Hsub IH|x k l Hsub IH]; intros Hsorted.
  - constructor.
  - apply StronglySorted_inv in Hsorted as [Hl Hx].
    constructor; [by apply IH|].
    rewrite Forall_forall in Hx |- *. intros y Hy. apply Hx.
    by eapply elem_of_sublist.
  - apply StronglySorted_inv in Hsorted as [Hl _]. by apply IH.
Qed.

Lemma newer_first_trans {A} (createdAt : A → Z) :
  Transitive (newer_first createdAt).
Proof. intros a b c. unfold newer_first. lia. Qed.

Lemma newer_first_total {A} (createdAt : A → Z) :
  Total (newer_first createdAt).
Proof. intros a b. unfold newer_first. lia. Qed.

Lemma cursor_sorted {A} (createdAt : A → Z) (l docs : list A) (limit skip : Z) :
  cursor createdAt l limit skip = Js.Returned docs →
  StronglySorted (newer_first createdAt) docs.
Proof.
  unfold cursor. destruct (skip <? 0)%Z; [discriminate|].
  intros [= <-].
  assert (Hsorted : StronglySorted (newer_first createdAt)
                      (drop (Z.to_nat skip)
                         (merge_sort (newer_first createdAt) l))).
  { eapply StronglySorted_sublist; [apply sublist_drop|].
    apply StronglySorted_merge_sort;
      [apply newer_first_trans | apply newer_first_total]. }
  destruct (limit =? 0)%Z; [exact Hsorted|].
  eapply StronglySorted_sublist; [apply sublist_take | exact Hsorted].
Qed.

(** X19. Both admin listings come newest first: in every page sent, each
    document was created no earlier than all the documents after it. *)
Theorem listings_are_newest_first
    (regex_i : string → option (string → bool)) (s : Server) :
  (∀ ts pg st,
     res (snd (get_templates regex_i s))
     = Some {| status := st; payload := PTemplates ts pg |} →
     StronglySorted
       (λ a b, (Template.createdAt (tdoc b) ≤ Template.createdAt (tdoc a))%Z) ts)
  ∧ (∀ us pg st,
       res (snd (get_users regex_i s))
       = Some {| status := st; payload := PUsers us pg |} →
       StronglySorted (λ a b, (User.createdAt b ≤ User.createdAt a)%Z) us).
Proof.
  split.
  - intros ts pg st Hres.
    apply templates_page_inv in Hres as (docs & Hcursor & -> & _).
    apply cursor_sorted in Hcursor.
    eapply StronglySorted_fmap; [|exact Hcursor]. auto.
  - intros us pg st Hres.
    apply users_page_inv in Hres as (Hcursor & _).
    by apply cursor_sorted in Hcursor.
Qed.

Lemma flat_map_ext_in {A B} (f g : A → list B) (l : list A) :
  (∀ a, In a l → f a = g a) → flat_map f l = flat_map g l.
Proof.
  induction l as [|a l IH]; intros Hfg; simpl; [reflexivity|].
  rewrite Hfg by (by left). rewrite IH; [reflexivity|].
  intros b Hb. apply Hfg. by right.
Qed.

(** Consecutive pages of [k] documents are the first [n * k] documents. *)
Lemma pages_concat {A} (l : list A) (k n : nat) :
  flat_map (λ i, take k (drop ((i - 1) * k) l)) (seq 1 n) = take (n * k) l.
Proof.
  induction n as [|n IH]; [reflexivity|].
  rewrite seq_S, flat_map_app, IH. simpl.
  rewrite app_nil_r, Nat.sub_0_r, take_take_drop.
  f_equal. lia.
Qed.

Lemma tdoc_populate (d : Store) (l : list Template.doc) :
  tdoc <$> List.map (populate d) l = l.
Proof. induction l as [|t l IH]; simpl; [reflexivity | f_equal; exact IH]. Qed.

Section Paging.

Variable regex_i : string → option (string → bool).

(** One page of a store that answers, for an accepted search pattern. *)
Lemma listed_page (d : Store) (q : Query) (i : nat) :
  fault d = None →
  regex_ok regex_i (present (search q)) = true →
  (0 < default 20 (limit q))%Z →
  (1 ≤ i)%nat →
  listed regex_i d (on_page q (Z.of_nat i))
  = take (Z.to_nat (default 20 (limit q)))
      (drop ((i - 1) * Z.to_nat (default 20 (limit q)))
         (merge_sort (newer_first Template.createdAt)
            (List.filter (template_matches regex_i (templates_filter q))
               (templates d)))).
Proof.
  intros Hup Hregex Hlim Hi. unfold listed.
  rewrite get_templates_res. unfold templates_page.
  cbn [db serve req query on_page page limit search].
  change (default (plain 1%Z) (Some (plain (Z.of_nat i))))
    with (plain (Z.of_nat i)).
  cbn [number_of parseInt plain]. rewrite Hup.
  change (templates_filter (on_page q (Z.of_nat i))) with (templates_filter q).
  cbn [templates_filter f_or]. rewrite Hregex.
  unfold cursor.
  destruct (Z.ltb_spec ((Z.of_nat i - 1) * default 20 (limit q)) 0); [nia|].
  destruct (Z.eqb_spec (default 20 (limit q) * 1) 0); [lia|].
  simpl. rewrite tdoc_populate. f_equal; [lia|]. f_equal. nia.
Qed.

End Paging.

(** Documents created at distinct instants have one newest-first order. *)
Lemma sorted_strict {A} (createdAt : A → Z) (l : list A) :
  StronglySorted (newer_first createdAt) l →
  NoDup (createdAt <$> l) →
  StronglySorted (λ a b, (createdAt b < createdAt a)%Z) l.
Proof.
  induction 1 as [|x l Hl IH Hx]; intros Hnd; [constructor|].
  rewrite fmap_cons in Hnd. apply NoDup_cons in Hnd as [Hnotin Hnd].
  constructor; [by apply IH|].
  rewrite Forall_forall in Hx |- *. intros y Hy. specialize (Hx y Hy).
  unfold newer_first in Hx.
  assert (createdAt y ≠ createdAt x).
  { intros Heq. apply Hnotin. rewrite <- Heq.
    apply list_elem_of_fmap. eauto. }
  lia.
Qed.

Lemma sorted_perm_unique {A} (createdAt : A → Z) (l1 l2 : list A) :
  StronglySorted (newer_first createdAt) l1 →
  StronglySorted (newer_first createdAt) l2 →
  l1 ≡ₚ l2 →
  NoDup (createdAt <$> l1) →
  l1 = l2.
Proof.
  intros H1. revert l2.
  induction H1 as [|x l1 Hl1 IH Hx]; intros l2 H2 Hperm Hnd.
  - symmetry. by apply Permutation_nil.
  - destruct H2 as [|y l2 Hl2 Hy].
    { symmetry in Hperm. apply Permutation_nil in Hperm. discriminate. }
    rewrite fmap_cons in Hnd. apply NoDup_cons in Hnd as [Hnotin Hnd].
    assert (x = y) as <-.
    { assert (Hxin : x ∈ y :: l2) by (rewrite <- Hperm; left).
      assert (Hyin : y ∈ x :: l1) by (rewrite Hperm; left).
      apply elem_of_cons in Hxin as [?|Hxin]; [done|].
      apply elem_of_cons in Hyin as [?|Hyin]; [done|].
      exfalso. rewrite Forall_forall in Hx, Hy.
      specialize (Hx y Hyin). specialize (Hy x Hxin).
      unfold newer_first in *. apply Hnotin.
      apply list_elem_of_fmap. exists y. split; [lia|done]. }
    f_equal. apply IH; [done| |done].
    by apply Permutation_cons_inv in Hperm.
Qed.

(** X20. Walking the pages visits every matching template exactly once:
    for a store that answers, an accepted search pattern, a positive limit
    and matching templates created at distinct instants, the pages 1 to
    [pages] of [GET /templates], put one after the other, are a
    rearrangement of the matching templates, each created strictly later
    than all that follow it; they are the only newest-first arrangement of
    the matching templates, so the walk does not depend on how the store
    sorts. *)
Theorem pages_cover_matching
    (regex_i : string → option (string → bool)) (d : Store) (q : Query)
    (n : Z) :
  let matching := List.filter (template_matches regex_i (templates_filter q))
                    (templates d) in
  fault d = None →
  regex_ok regex_i (present (search q)) = true →
  (0 < default 20 (limit q))%Z →
  Math_ceil_div (Z.of_nat (length matching)) (default 20 (limit q)) = Some n →
  NoDup (Template.createdAt <$> matching) →
  let walk := flat_map (λ i, listed regex_i d (on_page q (Z.of_nat i)))
                (seq 1 (Z.to_nat n)) in
  walk ≡ₚ matching
  ∧ StronglySorted
      (λ a b, (Template.createdAt b < Template.createdAt a)%Z) walk
  ∧ (∀ l, l ≡ₚ matching →
          StronglySorted (newer_first Template.createdAt) l →
          l = walk).
Proof.
  intros matching Hup Hregex Hlim Hpages Hdistinct walk.
  assert (Hwalk : walk = merge_sort (newer_first Template.createdAt) matching).
  { subst walk.
    rewrite (flat_map_ext_in _
               (λ i, take (Z.to_nat (default 20 (limit q)))
                       (drop ((i - 1) * Z.to_nat (default 20 (limit q)))
                          (merge_sort (newer_first Template.createdAt) matching)))).
    2: { intros i Hi. apply in_seq in Hi.
         apply listed_page; [assumption..|lia]. }
    rewrite pages_concat. apply take_ge.
    rewrite (Permutation_length (merge_sort_Permutation _ matching)).
    destruct (Math_ceil_div_pos (Z.of_nat (length matching))
                (default 20 (limit q)) Hlim) as (p & Hp & _ & Hhigh).
    rewrite Hpages in Hp. injection Hp as ->. nia. }
  assert (Hperm : walk ≡ₚ matching)
    by (rewrite Hwalk; apply merge_sort_Permutation).
  assert (Hsorted : StronglySorted (newer_first Template.createdAt) walk).
  { rewrite Hwalk. apply StronglySorted_merge_sort;
      [apply newer_first_trans | apply newer_first_total]. }
  assert (Hkeys : NoDup (Template.createdAt <$> walk))
    by (by rewrite Hperm).
  split; [exact Hperm|]. split; [by apply sorted_strict|].
  intros l Hl Hlsorted. symmetry.
  apply (sorted_perm_unique Template.createdAt); [done..| |done].
  by rewrite Hl.
Qed.

Lemma pages_cover_matching_witness :
  length (flat_map (λ i, listed no_regex fifty_templates
                           (on_page (query (listing_request None (Some 20)))
                              (Z.of_nat i)))
            (seq 1 (Z.to_nat 3)))
  = 45%nat.
Proof.
  assert (Hdistinct :
            NoDup (Template.createdAt
                     <$> List.filter
                           (template_matches no_regex
                              (templates_filter
                                 (query (listing_request None (Some 20)))))
                           (templates fifty_templates))).
  { apply (bool_decide_unpack _). vm_compute. exact I. }
  destruct (pages_cover_matching no_regex fifty_templates
              (query (listing_request None (Some 20))) 3
              eq_refl eq_refl eq_refl eq_refl Hdistinct) as [Hperm _].
  rewrite (Permutation_length Hperm). reflexivity.
Defined.

(** Every template of a page sent by [GET /templates] passes the filter
    built from the query. *)
Lemma listed_templates_match (regex_i : string → option (string → bool))
    (s : Server) (st : Z) (ts : list Populated) (pg : Pagination) :
  res (snd (get_templates regex_i s))
  = Some {| status := st; payload := PTemplates ts pg |} →
  Forall (λ p, template_matches regex_i (templates_filter (query (req s)))
                 (tdoc p) = true) ts.
Proof.
  intros Hres.
  apply templates_page_inv in Hres as (docs & Hcursor & -> & _).
  apply Forall_forall. intros p Hp.
  apply list_elem_of_fmap in Hp as (t & -> & Ht). simpl.
  apply (cursor_elem_of _ _ _ _ _ Hcursor) in Ht.
  by apply list_elem_of_In, filter_In in Ht as [_ Ht].
Qed.

(** X21. A [category] parameter other than the empty text and 'all'
    restricts the listing to that category: every template of the page has
    exactly that category. *)
Theorem listing_respects_category
    (regex_i : string → option (string → bool)) (s : Server) (c : string)
    (st : Z) (ts : list Populated) (pg : Pagination) :
  category (query (req s)) = Some c →
  c ≠ "" → c ≠ "all" →
  res (snd (get_templates regex_i s))
  = Some {| status := st; payload := PTemplates ts pg |} →
  Forall (λ p, Template.category (tdoc p) = c) ts.
Proof.
  intros Hc Hne Hall Hres.
  eapply Forall_impl; [exact (listed_templates_match _ _ _ _ _ Hres)|].
  intros p. unfold template_matches, templates_filter.
  rewrite Hc. simpl.
  apply String.eqb_neq in Hne, Hall. rewrite Hne, Hall. simpl.
  rewrite !andb_true_iff. intros [[[_ Hcat] _] _].
  by apply String.eqb_eq in Hcat.
Qed.

Lemma listing_respects_category_witness :
  ∃ ts pg,
    res (snd (get_templates no_regex
                (serve mixed_templates (filter_request (Some "billing") None))))
    = Some {| status := 200; payload := PTemplates ts pg |}
    ∧ length ts = 2%nat
    ∧ Forall (λ p, Template.category (tdoc p) = "billing") ts.
Proof.
  eexists _, _. split; [vm_compute; reflexivity|].
  split; [reflexivity|].
  eapply (listing_respects_category no_regex
            (serve mixed_templates (filter_request (Some "billing") None))
            "billing");
    [reflexivity | discriminate | discriminate | vm_compute; reflexivity].
Defined.

(** X22. The category 'all', like an empty or absent one, is no filter: the
    route answers such a request exactly as it answers the same request
    without a category. *)
Theorem category_all_is_no_filter
    (regex_i : string → option (string → bool)) (d : Store) (r : Request)
    (c : string) :
  category (query r) = Some c →
  c = "all" ∨ c = "" →
  res (snd (get_templates regex_i (serve d r)))
  = res (snd (get_templates regex_i
                (serve d {| authorization := authorization r; user := user r;
                            query := {| page := page (query r);
                                        limit := limit (query r);
                                        search := search (query r);
                                        category := None;
                                        isPublic := isPublic (query r) |};
                            body := body r |}))).
Proof.
  intros Hc Hall. rewrite !get_templates_res. f_equal. f_equal.
  unfold templates_page. cbn [db serve req query page limit search].
  unfold templates_filter. cbn [search category isPublic]. rewrite Hc.
  by destruct Hall as [-> | ->].
Qed.

Lemma category_all_is_no_filter_witness :
  res (snd (get_templates no_regex
              (serve mixed_templates (filter_request (Some "all") None))))
  = res (snd (get_templates no_regex
                (serve mixed_templates (filter_request None None)))).
Proof.
  apply (category_all_is_no_filter no_regex mixed_templates
           (filter_request (Some "all") None) "all");
    [reflexivity | left; reflexivity].
Defined.

(** X23. The [isPublic] parameter is compared with the text 'true' and
    nothing else: with 'true' every template of the page is public, and
    with any other text — 'false', '1', 'yes', the empty text — every
    template of the page is private. *)
Theorem isPublic_is_exactly_true
    (regex_i : string → option (string → bool)) (s : Server) (v : string)
    (st : Z) (ts : list Populated) (pg : Pagination) :
  isPublic (query (req s)) = Some v →
  res (snd (get_templates regex_i s))
  = Some {| status := st; payload := PTemplates ts pg |} →
  Forall (λ p, Template.isPublic (tdoc p) = String.eqb v "true") ts.
Proof.
  intros Hv Hres.
  eapply Forall_impl; [exact (listed_templates_match _ _ _ _ _ Hres)|].
  intros p. unfold template_matches, templates_filter.
  rewrite Hv. simpl.
  rewrite !andb_true_iff. intros [[_ Hpub] _].
  by apply Bool.eqb_prop in Hpub.
Qed.

Lemma isPublic_is_exactly_true_witness :
  ∃ ts pg,
    res (snd (get_templates no_regex
                (serve mixed_templates (filter_request None (Some "yes")))))
    = Some {| status := 200; payload := PTemplates ts pg |}
    ∧ length ts = 1%nat
    ∧ Forall (λ p, Template.isPublic (tdoc p) = false) ts.
Proof.
  eexists _, _. split; [vm_compute; reflexivity|].
  split; [reflexivity|].
  eapply (isPublic_is_exactly_true no_regex
            (serve mixed_templates (filter_request None (Some "yes"))) "yes");
    [reflexivity | vm_compute; reflexivity].
Defined.

Lemma filter_length_mono {A} (f g : A → bool) (l : list A) :
  (∀ x, f x = true → g x = true) →
  (length (List.filter f l) ≤ length (List.filter g l))%nat.
Proof.
  intros Hfg. induction l as [|x l IH]; simpl; [lia|].
  destruct (f x) eqn:Hf.
  - rewrite (Hfg x Hf). simpl. lia.
  - destruct (g x); simpl; lia.
Qed.



(* ===================================================================== *)
(** ** Properties of the App component *)
(* ===================================================================== *)

(** The callbacks look at nothing of a value but its truthiness. *)
Ltac app_cases Hu :=
  simpl in *; rewrite ?Hu in *; simpl in *; rewrite ?Hu in *;
  repeat match goal with
         | |- context [Js.truthy ?x] => destruct (Js.truthy x)
         end;
  simpl in *; try discriminate;
  intuition (discriminate || congruence).

Section AppFacts.

Variable current_user : Api Js.value.

Local Abbreviation reachable := (App.reachable current_user).

Lemma app_invariant_initial : app_invariant App.initial.
Proof. unfold app_invariant. simpl. intuition discriminate. Qed.

(** Every callback keeps the invariant, as long as the element that fires
    it is rendered. *)
Lemma app_invariant_step (e : App.event) (w : App.world) :
  app_invariant (App.ui w) →
  App.rendered e (App.ui w) = true →
  app_invariant (App.ui (App.step current_user e w)).
Proof.
  destruct w as [[view ct pt u modal loading] a].
  unfold app_invariant. simpl. intros Hinv Hrendered.
  destruct e; simpl in *;
    unfold App.checkAuthStatus, App.handleCreateNew, App.handleEditTemplate;
    simpl.
  1: { destruct (present _); [destruct (current_user a) as [[u'|err] a']|];
       simpl; subst loading; intuition (try discriminate; try congruence). }
  all: destruct (Js.truthy u) eqn:Hu;
    destruct view, modal, loading; app_cases Hu.
Qed.

Lemma app_invariant_reachable (w : App.world) :
  reachable w → app_invariant (App.ui w).
Proof.
  induction 1 as [a|e w Hreach IH Hrendered].
  - apply app_invariant_initial.
  - by apply app_invariant_step.
Qed.

End AppFacts.

(** X25. The builder is shown to signed-in users only: in every state the
    component can reach, a current view of 'builder' comes with a truthy
    user. *)
Theorem builder_requires_user (current_user : Api Js.value) (w : App.world) :
  App.reachable current_user w →
  App.currentView (App.ui w) = App.builder →
  Js.truthy (App.user (App.ui w)) = true.
Proof.
  intros Hreach. by destruct (app_invariant_reachable current_user w Hreach).
Qed.

Lemma builder_requires_user_witness :
  App.currentView
    (App.ui (App.run ann_is_back [App.Mounted; App.CreateNew]
               (App.World App.initial signed_in))) = App.builder
  ∧ Js.truthy
      (App.user (App.ui (App.run ann_is_back [App.Mounted; App.CreateNew]
                           (App.World App.initial signed_in)))) = true.
Proof.
  split; [reflexivity|].
  apply (builder_requires_user ann_is_back); [|reflexivity].
  apply (App.reach_step ann_is_back App.CreateNew); [|reflexivity].
  apply (App.reach_step _ App.Mounted); [|reflexivity].
  apply App.reach_initial.
Defined.

(** X26. The sign-in modal is open only for a signed-out visitor looking at
    the gallery: in every reachable state with [showAuthModal] set, the
    user is falsy and the current view is 'gallery'. *)
Theorem modal_only_when_signed_out (current_user : Api Js.value) (w : App.world) :
  App.reachable current_user w →
  App.showAuthModal (App.ui w) = true →
  Js.truthy (App.user (App.ui w)) = false
  ∧ App.currentView (App.ui w) = App.gallery.
Proof.
  intros Hreach Hopen.
  destruct (app_invariant_reachable current_user w Hreach)
    as (Hbuilder & Hmodal & Hpreview & _).
  split; [by apply Hmodal|].
  destruct (App.currentView (App.ui w)); [reflexivity | | contradiction].
  rewrite Hbuilder in Hmodal by reflexivity. by specialize (Hmodal Hopen).
Qed.

Lemma modal_only_when_signed_out_witness :
  App.currentView
    (App.ui (App.run network_down [App.Mounted; App.CreateNew]
               (App.World App.initial signed_in))) = App.gallery.
Proof.
  apply (modal_only_when_signed_out network_down); [|reflexivity].
  apply (App.reach_step network_down App.CreateNew); [|reflexivity].
  apply (App.reach_step _ App.Mounted); [|reflexivity].
  apply App.reach_initial.
Defined.

(** X27. No callback ever selects the 'preview' view: the current view of
    every reachable state is 'gallery' or 'builder', and a preview is shown
    over it through [previewTemplate] alone. *)
Theorem view_is_never_preview (current_user : Api Js.value) (w : App.world) :
  App.reachable current_user w →
  App.currentView (App.ui w) ≠ App.preview.
Proof.
  intros Hreach.
  by destruct (app_invariant_reachable current_user w Hreach) as (_ & _ & ? & _).
Qed.

Lemma view_is_never_preview_witness :
  App.currentView
    (App.ui (App.run ann_is_back
               [App.Mounted; App.PreviewTemplate (Js.composite None "t")]
               (App.World App.initial signed_in))) ≠ App.preview.
Proof.
  apply (view_is_never_preview ann_is_back).
  apply (App.reach_step ann_is_back
           (App.PreviewTemplate (Js.composite None "t"))); [|reflexivity].
  apply (App.reach_step _ App.Mounted); [|reflexivity].
  apply App.reach_initial.
Defined.

(** X28. Logging out signs the visitor out everywhere: the user is null,
    the view is the gallery, the gateway's token is gone from memory and
    from localStorage — and the next attempt to create or edit a template
    opens the sign-in modal instead of the builder. *)
Theorem logout_then_create_asks_sign_in (w : App.world) (t : Js.value) :
  let w' := App.handleLogout w in
  App.user (App.ui w') = Js.null
  ∧ App.currentView (App.ui w') = App.gallery
  ∧ token (App.api w') = None
  ∧ localStorage (App.api w') !! "authToken" = None
  ∧ App.handleCreateNew (App.ui w') = App.setShowAuthModal true (App.ui w')
  ∧ App.handleEditTemplate t (App.ui w') = App.setShowAuthModal true (App.ui w').
Proof.
  destruct w as [s a]. simpl.
  repeat split. apply lookup_delete_eq.
Qed.

(** X29. The start-up check always ends the loading state.  Without a
    stored token it calls nothing and leaves everything else as it was;
    when the call for the current user fails it keeps the visitor signed
    out and removes the token from localStorage, while the gateway's
    in-memory token stays as the call left it. *)
Theorem checkAuthStatus_ends_loading (current_user : Api Js.value)
    (w : App.world) :
  let w' := App.checkAuthStatus current_user w in
  App.isLoading (App.ui w') = false
  ∧ (present (localStorage (App.api w) !! "authToken") = None →
     w' = App.World (App.setIsLoading false (App.ui w)) (App.api w))
  ∧ (∀ e a, is_Some (present (localStorage (App.api w) !! "authToken")) →
            current_user (App.api w) = (Js.Thrown e, a) →
            App.user (App.ui w') = App.user (App.ui w)
            ∧ localStorage (App.api w') !! "authToken" = None
            ∧ token (App.api w') = token a).
Proof.
  destruct w as [s a0]. unfold App.checkAuthStatus. simpl.
  destruct (present _) as [tok|].
  - destruct (current_user a0) as [[u|err] a1] eqn:Hcall; simpl.
    + split; [reflexivity|]. split; [discriminate|].
      intros e a _ [=].
    + split; [reflexivity|]. split; [discriminate|].
      intros e a _ [= _ <-]. repeat split. apply lookup_delete_eq.
  - split; [reflexivity|]. split; [reflexivity|].
    intros e a [? [=]].
Qed.
